(** * The billing pipeline: extract, transform, load

    A shallow embedding of [Introduction_to_Unit_Testing_Dennis_Mutai.py]:
    the three functions [data_extraction], [data_transformation] and
    [data_loading], together with the part of pandas they call
    ([read_csv], [drop_duplicates], column selection and assignment,
    [.str.replace], [.astype(float)], [+] on columns, [to_csv]).

    Python names denote objects: a [DataFrame] lives in a store and is
    passed by reference, so the functions are written in a state and
    exception monad over that store and a file system. *)

From Stdlib Require Import ZArith List Bool Ascii String Lia.
From Stdlib Require Import SpecFloat Sorted.
From stdpp Require Import base option list gmap strings pretty.

Local Open Scope Z_scope.
Local Open Scope string_scope.

(** ** Floating point: IEEE 754 binary64, the [float64] of numpy *)

Module F64.

Definition prec : Z := 53.
Definition emax : Z := 1024.

(** A Python [float], a numpy [float64]. *)
Definition float : Type := spec_float.

Definition nan : float := S754_nan.

Definition add (x y : float) : float := SFadd prec emax x y.

(** Conversion of an integer, rounding to nearest even. *)
Definition of_Z (z : Z) : float := binary_normalize prec emax z 0 false.

Definition is_nan (x : float) : bool :=
  match x with S754_nan => true | _ => false end.

(** The class of a float in a pandas hash table: [x == y], or both
    are NaN.  The two zeros compare equal; apart from them two
    canonical binary64 values compare equal when they are the same. *)
Definition hash_key (x : float) : float :=
  match x with S754_zero _ => S754_zero false | _ => x end.

#[global] Instance float_eq_dec : EqDecision float.
Proof. solve_decision. Defined.

End F64.

Abbreviation float := F64.float.

(** ** Values *)

(** An element of an [object] column: a [str], or the missing value
    [nan] that [read_csv] puts in a text column. *)
Inductive pyobj : Type :=
  | PyStr (s : string)
  | PyNaN.

(** A column with its dtype.  The dtypes are those [read_csv] gives to
    numeric and text data. *)
Inductive Series : Type :=
  | SInt64 (l : list Z)
  | SFloat64 (l : list float)
  | SObject (l : list pyobj).

(** One value of a row. *)
Inductive cell : Type :=
  | CInt (z : Z)
  | CFloat (x : float)
  | CObj (o : pyobj).

#[global] Instance pyobj_eq_dec : EqDecision pyobj.
Proof. solve_decision. Defined.
#[global] Instance Series_eq_dec : EqDecision Series.
Proof. solve_decision. Defined.
#[global] Instance cell_eq_dec : EqDecision cell.
Proof. solve_decision. Defined.

Definition series_cells (s : Series) : list cell :=
  match s with
  | SInt64 l => CInt <$> l
  | SFloat64 l => CFloat <$> l
  | SObject l => CObj <$> l
  end.

Definition series_len (s : Series) : nat := length (series_cells s).

(** A missing value, as [isna] sees it. *)
Definition cell_isna (c : cell) : bool :=
  match c with
  | CInt _ => false
  | CFloat x => F64.is_nan x
  | CObj (PyStr _) => false
  | CObj PyNaN => true
  end.

(** ** Tables *)

(** A [DataFrame]: the row labels and the columns in order.  In a
    well-formed frame the column labels are distinct and every column
    is as long as the index; the frames that [read_csv] and the
    dictionary constructor build are well formed. *)
Record DataFrame : Type := mkFrame {
  df_index : list Z;
  df_columns : list (string * Series)
}.

#[global] Instance DataFrame_eq_dec : EqDecision DataFrame.
Proof. solve_decision. Defined.

Definition labels (d : DataFrame) : list string := fst <$> df_columns d.

Definition nrows (d : DataFrame) : nat := length (df_index d).

(** [DataFrame.empty]: one of the two axes has length zero. *)
Definition frame_empty (d : DataFrame) : bool :=
  bool_decide (df_index d = []) || bool_decide (df_columns d = []).

Definition wf_frame (d : DataFrame) : Prop :=
  NoDup (labels d) /\
  Forall (fun c => series_len c.2 = nrows d) (df_columns d).

(** The column under a label, for the distinct labels of a well-formed
    frame.  With a label that occurs twice pandas selects a frame and
    not a column; the model does not cover such frames, and takes the
    first column. *)
Fixpoint find_column (cols : list (string * Series)) (name : string)
  : option Series :=
  match cols with
  | [] => None
  | (n, s) :: cols' => if decide (n = name) then Some s else find_column cols' name
  end.

Definition column (d : DataFrame) (name : string) : option Series :=
  find_column (df_columns d) name.

(** Row [i], one value per column; [None] where a column is too short. *)
Definition frame_row (d : DataFrame) (i : nat) : list (option cell) :=
  (fun c : string * Series => series_cells c.2 !! i) <$> df_columns d.

Definition frame_rows (d : DataFrame) : list (list (option cell)) :=
  frame_row d <$> seq 0 (nrows d).

(** The value of row [i] under a label. *)
Definition cell_at (d : DataFrame) (name : string) (i : nat) : option cell :=
  s ← column d name; series_cells s !! i.

(** ** Exceptions, results, the store *)

Inductive exn : Type :=
  | KeyError (key : string)
  | AttributeError
  | ValueError
  | TypeError
  | FileNotFoundError
  | PermissionError
  | OSError
  | EmptyDataError
  | ParserError
  | ReferenceError.

Inductive result (A : Type) : Type :=
  | Ok (a : A)
  | Raise (e : exn).
Arguments Ok {A} a.
Arguments Raise {A} e.

#[global] Instance exn_eq_dec : EqDecision exn.
Proof. solve_decision. Defined.

(** A reference to a [DataFrame] object. *)
Definition ref : Type := nat.

(** The objects alive, the files by path, and the paths that cannot be
    opened for writing with the error [open] raises for them. *)
Record World : Type := mkWorld {
  frames : gmap nat DataFrame;
  files : gmap string string;
  locked : gmap string exn
}.

Definition with_frames (f : gmap nat DataFrame) (w : World) : World :=
  mkWorld f (files w) (locked w).

Definition with_files (f : gmap string string) (w : World) : World :=
  mkWorld (frames w) f (locked w).

(** Computations that read and write the world and may raise; what was
    written before a raise stays written. *)
Definition M (A : Type) : Type := World -> result A * World.

#[global] Instance M_ret : MRet M := fun A a w => (Ok a, w).

#[global] Instance M_bind : MBind M := fun A B f m w =>
  match m w with
  | (Ok a, w') => f a w'
  | (Raise e, w') => (Raise e, w')
  end.

Definition raise {A : Type} (e : exn) : M A := fun w => (Raise e, w).

Definition lift {A : Type} (x : result A) : M A := fun w => (x, w).

(** Dereference; a Python name always refers to a live object, so the
    error branch is there for totality only. *)
Definition load (r : ref) : M DataFrame := fun w =>
  match frames w !! r with
  | Some d => (Ok d, w)
  | None => (Raise ReferenceError, w)
  end.

(** A new object. *)
Definition alloc (d : DataFrame) : M ref := fun w =>
  let r := fresh (dom (frames w)) in
  (Ok r, with_frames (<[r := d]> (frames w)) w).

(** In-place update of an object. *)
Definition store (r : ref) (d : DataFrame) : M unit := fun w =>
  (Ok tt, with_frames (<[r := d]> (frames w)) w).

(** ** pandas: [drop_duplicates] *)

(** The key under which [duplicated] hashes a value: missing values
    are one class, and so are the two zeros of a float column. *)
Definition cell_key (c : cell) : cell :=
  match c with
  | CFloat x => CFloat (F64.hash_key x)
  | _ => c
  end.

Definition row_key (r : list (option cell)) : list (option cell) :=
  (fun c : option cell => cell_key <$> c) <$> r.

(** [duplicated(keep='first')]: a row is marked when its key was seen
    in an earlier row. *)
Fixpoint duplicated_from (seen keys : list (list (option cell))) : list bool :=
  match keys with
  | [] => []
  | k :: keys' => bool_decide (k ∈ seen) :: duplicated_from (k :: seen) keys'
  end.

Definition duplicated (d : DataFrame) : list bool :=
  duplicated_from [] (row_key <$> frame_rows d).

(** Boolean indexing: the positions where the mask holds. *)
Fixpoint keep_rows {A : Type} (mask : list bool) (l : list A) : list A :=
  match mask, l with
  | b :: mask', x :: l' =>
      if b then x :: keep_rows mask' l' else keep_rows mask' l'
  | _, _ => []
  end.

Definition series_mask (mask : list bool) (s : Series) : Series :=
  match s with
  | SInt64 l => SInt64 (keep_rows mask l)
  | SFloat64 l => SFloat64 (keep_rows mask l)
  | SObject l => SObject (keep_rows mask l)
  end.

Definition frame_mask (mask : list bool) (d : DataFrame) : DataFrame :=
  mkFrame (keep_rows mask (df_index d))
          ((fun c : string * Series => (c.1, series_mask mask c.2)) <$> df_columns d).

(** An empty frame is copied as it is; otherwise the rows not marked
    are kept, with their labels. *)
Definition drop_duplicates_frame (d : DataFrame) : DataFrame :=
  if frame_empty d then d else frame_mask (negb <$> duplicated d) d.

(** [data.drop_duplicates()]: the result is a new object. *)
Definition drop_duplicates (data : ref) : M ref :=
  d ← load data; alloc (drop_duplicates_frame d).

(** ** pandas: columns *)

(** [data[name]]. *)
Definition getitem (data : ref) (name : string) : M Series :=
  d ← load data;
  match column d name with
  | Some s => mret s
  | None => raise (KeyError name)
  end.

Definition set_column (cols : list (string * Series)) (name : string) (s : Series)
  : list (string * Series) :=
  if bool_decide (name ∈ cols.*1)
  then (fun c : string * Series => if decide (c.1 = name) then (c.1, s) else c) <$> cols
  else cols ++ [(name, s)].

Definition set_frame_column (d : DataFrame) (name : string) (s : Series) : DataFrame :=
  mkFrame (df_index d) (set_column (df_columns d) name s).

(** [data[name] = s] for a column [s] on the index of [data]: the
    object [data] is updated in place, an existing label keeps its
    position and a new one goes last. *)
Definition setitem (data : ref) (name : string) (s : Series) : M unit :=
  d ← load data;
  store data (set_frame_column d name s).

(** ** pandas: [.str.replace] and [.astype(float)] *)

(** The [.str] accessor exists on columns of strings only. *)
Definition str_accessor (s : Series) : result (list pyobj) :=
  match s with
  | SObject l => Ok l
  | SInt64 _ | SFloat64 _ => Raise AttributeError
  end.

(** [s.replace(pat, repl)] of Python for a pattern of one character,
    read literally. *)
Fixpoint replace_char (pat : ascii) (repl s : string) : string :=
  match s with
  | EmptyString => EmptyString
  | String a s' =>
      if decide (a = pat) then repl ++ replace_char pat repl s'
      else String a (replace_char pat repl s')
  end.

(** [.str.replace(pat, repl)]: missing values stay missing. *)
Definition obj_replace (pat : ascii) (repl : string) (o : pyobj) : pyobj :=
  match o with
  | PyStr s => PyStr (replace_char pat repl s)
  | PyNaN => PyNaN
  end.

Definition str_replace (pat : ascii) (repl : string) (l : list pyobj) : Series :=
  SObject (obj_replace pat repl <$> l).

(** ** pandas: [+] on two columns of one frame *)

(** int64 arithmetic wraps around. *)
Definition wrap64 (z : Z) : Z := (z + 2 ^ 63) mod 2 ^ 64 - 2 ^ 63.

(** The sum of two values of a row.  Numbers add as numbers, an
    integer next to a float is converted first, strings concatenate;
    where a string meets a number the sum is missing if one of the two
    is missing and a [TypeError] otherwise. *)
Definition cell_add (a b : cell) : result cell :=
  match a, b with
  | CInt x, CInt y => Ok (CInt (wrap64 (x + y)))
  | CInt x, CFloat y => Ok (CFloat (F64.add (F64.of_Z x) y))
  | CFloat x, CInt y => Ok (CFloat (F64.add x (F64.of_Z y)))
  | CFloat x, CFloat y => Ok (CFloat (F64.add x y))
  | CObj (PyStr s), CObj (PyStr t) => Ok (CObj (PyStr (s ++ t)))
  | _, _ => if cell_isna a || cell_isna b then Ok (CObj PyNaN) else Raise TypeError
  end.

Definition obj_add (p : cell * cell) : option pyobj :=
  match cell_add p.1 p.2 with
  | Ok (CObj o) => Some o
  | _ => None
  end.

(** The two columns come from one frame, so they are on the same index
    and are added position by position.  Two numeric columns give a
    numeric column; with an [object] column on either side the values
    are added one by one as Python objects, only where both are
    present. *)
Definition series_add (a b : Series) : result Series :=
  match a, b with
  | SInt64 x, SInt64 y => Ok (SInt64 (zip_with (fun u v => wrap64 (u + v)) x y))
  | SInt64 x, SFloat64 y =>
      Ok (SFloat64 (zip_with (fun u v => F64.add (F64.of_Z u) v) x y))
  | SFloat64 x, SInt64 y =>
      Ok (SFloat64 (zip_with (fun u v => F64.add u (F64.of_Z v)) x y))
  | SFloat64 x, SFloat64 y => Ok (SFloat64 (zip_with F64.add x y))
  | _, _ =>
      match mapM obj_add (zip (series_cells a) (series_cells b)) with
      | Some l => Ok (SObject l)
      | None => Raise TypeError
      end
  end.

(** ** Writing CSV *)

Definition dquote : ascii := ascii_of_nat 34.
Definition newline : string := String (ascii_of_nat 10) EmptyString.

(** Minimal quoting of the [csv] module with the line terminator that
    [to_csv] passes, a line feed: a field is quoted when it holds the
    delimiter, the quote character or a character of the line
    terminator, and the quote character is doubled.  A carriage return
    alone does not make a field quoted. *)
Definition needs_quote (s : string) : bool :=
  existsb (fun a => bool_decide (a ∈ [","%char; dquote; ascii_of_nat 10]))
          (list_ascii_of_string s).

Definition csv_field (s : string) : string :=
  if needs_quote s
  then String dquote (replace_char dquote (String dquote (String dquote EmptyString)) s
                      ++ String dquote EmptyString)
  else s.

(** [writer.writerow]: a row of no field is a bare line terminator, a
    row of one empty field is written quoted. *)
Definition writerow (fields : list string) : string :=
  match fields with
  | [] => newline
  | [EmptyString] => String dquote (String dquote newline)
  | _ => String.concat "," (csv_field <$> fields) ++ newline
  end.

(** [open(path, 'w')] and one write. *)
Definition write_file (path text : string) : M unit := fun w =>
  match locked w !! path with
  | Some e => (Raise e, w)
  | None => (Ok tt, with_files (<[path := text]> (files w)) w)
  end.

Section Pipeline.

(** [float(s)] on a [str]: [None] where Python raises [ValueError]. *)
Variable py_float : string -> option float.
(** [repr] of a float that is not NaN, as [to_csv] writes it. *)
Variable float_repr : float -> string.
(** The tokenizer and type inference of [read_csv] on the text of a
    file that is not empty. *)
Variable csv_parse : string -> result DataFrame.

Definition obj_float (o : pyobj) : option float :=
  match o with
  | PyStr s => py_float s
  | PyNaN => Some F64.nan
  end.

(** [.astype(float)]. *)
Definition astype_float (s : Series) : result Series :=
  match s with
  | SInt64 l => Ok (SFloat64 (F64.of_Z <$> l))
  | SFloat64 l => Ok (SFloat64 l)
  | SObject l =>
      match mapM obj_float l with
      | Some fl => Ok (SFloat64 fl)
      | None => Raise ValueError
      end
  end.

(** [pd.read_csv(path)]. *)
Definition read_csv (path : string) : M ref := fun w =>
  match files w !! path with
  | None => (Raise FileNotFoundError, w)
  | Some text =>
      if decide (text = EmptyString) then (Raise EmptyDataError, w)
      else match csv_parse text with
           | Ok d => alloc d w
           | Raise e => (Raise e, w)
           end
  end.

(** A value as [to_csv] writes it; a missing value is written as the
    empty string. *)
Definition csv_cell (c : option cell) : string :=
  match c with
  | Some (CInt z) => pretty z
  | Some (CFloat x) => if F64.is_nan x then EmptyString else float_repr x
  | Some (CObj (PyStr s)) => s
  | Some (CObj PyNaN) | None => EmptyString
  end.

(** The text of [to_csv(index=False)]: the header, then one line per
    row. *)
Definition to_csv_text (d : DataFrame) : string :=
  writerow (labels d)
  ++ String.concat EmptyString ((fun r => writerow (csv_cell <$> r)) <$> frame_rows d).

(** [data.to_csv(path, index=False)]: the file is opened for
    writing, which replaces what was there. *)
Definition to_csv (data : ref) (path : string) : M unit :=
  d ← load data;
  write_file path (to_csv_text d).

(** ** The pipeline *)

Definition data_extraction (file_path : string) : M ref :=
  data ← read_csv file_path;
  mret data.

Definition data_transformation (data : ref) : M ref :=
  data ← drop_duplicates data;
  billing ← getitem data "billing_amount";
  strs ← lift (str_accessor billing);
  converted ← lift (astype_float (str_replace "$" EmptyString strs));
  setitem data "billing_amount" converted;;
  billing ← getitem data "billing_amount";
  tax ← getitem data "tax_amount";
  total ← lift (series_add billing tax);
  setitem data "total_charges" total;;
  mret data.

Definition data_loading (data : ref) (output_file : string) : M unit :=
  to_csv data output_file.

End Pipeline.

(** ** A reference [float()] for the examples *)

(** Python's [float] on the plain decimal literals
    [[sign] digits [. digits]], correctly rounded.  It answers [None]
    on every other text; that is Python's answer for text that is no
    number, and not for the exponent, infinity, NaN, underscore and
    padded forms, which the examples below do not use. *)
Module RefFloat.

Definition digit (a : ascii) : option Z :=
  let n := Z.of_nat (nat_of_ascii a) in
  if bool_decide (48 <= n <= 57) then Some (n - 48) else None.

(** The value of a run of digits after [acc], and how many. *)
Fixpoint digits (acc : Z) (s : string) : option (Z * Z) :=
  match s with
  | EmptyString => Some (acc, 0)
  | String a s' =>
      d ← digit a;
      r ← digits (10 * acc + d) s';
      Some (r.1, r.2 + 1)
  end.

(** The text before the first dot, and the text after it if any. *)
Fixpoint split_dot (s : string) : string * option string :=
  match s with
  | EmptyString => (EmptyString, None)
  | String a s' =>
      if decide (a = "."%char) then (EmptyString, Some s')
      else let r := split_dot s' in (String a r.1, r.2)
  end.

(** [m / 10 ^ k] with the sign [neg], rounded to nearest even. *)
Definition round_decimal (neg : bool) (m k : Z) : float :=
  match m with
  | Zpos p =>
      let '(q, e, l) := SFdiv_core_binary F64.prec F64.emax m 0 (10 ^ k) 0 in
      binary_round_aux F64.prec F64.emax neg q e l
  | _ => S754_zero neg
  end.

Definition unsigned (neg : bool) (s : string) : option float :=
  let (ip, fp) := split_dot s in
  let fp := default EmptyString fp in
  if bool_decide (ip = EmptyString /\ fp = EmptyString) then None
  else
    i ← digits 0 ip;
    f ← digits i.1 fp;
    Some (round_decimal neg f.1 f.2).

Definition py_float (s : string) : option float :=
  match s with
  | String "-" s' => unsigned true s'
  | String "+" s' => unsigned false s'
  | _ => unsigned false s
  end.

(** Python's [repr] of a float whose value is an integer below
    [10 ^ 16], of the zeros, the infinities and NaN.  For any other
    float it writes the exact decimal expansion, which is not the
    shortest one that Python writes; the examples below do not use
    such floats. *)
Definition repr (x : float) : string :=
  match x with
  | S754_nan => "nan"
  | S754_infinity false => "inf"
  | S754_infinity true => "-inf"
  | S754_zero false => "0.0"
  | S754_zero true => "-0.0"
  | S754_finite s m e =>
      let sign := if s then "-" else EmptyString in
      if bool_decide (0 <= e) then sign ++ pretty (Zpos m * 2 ^ e) ++ ".0"
      else
        let n := Zpos m * 5 ^ (- e) in
        let ip := n / 10 ^ (- e) in
        let fp := n mod 10 ^ (- e) in
        if bool_decide (fp = 0) then sign ++ pretty ip ++ ".0"
        else sign ++ pretty ip ++ "."
             ++ match pretty (10 ^ (- e) + fp) with
                | String _ ds => ds
                | EmptyString => EmptyString
                end
  end.

End RefFloat.

(** ** Notions used in the statements *)

(** The rows of a table given by the values of its columns. *)
Definition rows_of (n : nat) (cols : list (list cell)) : list (list (option cell)) :=
  (fun i => (fun c : list cell => c !! i) <$> cols) <$> seq 0 n.

(** The rows that [duplicated] does not mark, given the keys seen. *)
Definition kept_from {A : Type} (key : A -> list (option cell))
    (seen : list (list (option cell))) (l : list A) : list A :=
  keep_rows (negb <$> duplicated_from seen (key <$> l)) l.

(** What [drop_duplicates] makes of a column of the frame. *)
Definition dedup_series (d : DataFrame) (s : Series) : Series :=
  if frame_empty d then s else series_mask (negb <$> duplicated d) s.

#[global] Instance wf_frame_dec (d : DataFrame) : Decision (wf_frame d).
Proof. unfold wf_frame. apply _. Defined.

(** The text without its dollar signs, wherever they stand. *)
Definition remove_dollars (s : string) : string :=
  string_of_list_ascii (filter (fun a => a <> "$"%char) (list_ascii_of_string s)).

(** The spec's reading of the stripping: one symbol, in front. *)
Definition strip_leading_symbol (s : string) : string :=
  match s with
  | String "$" s' => s'
  | _ => s
  end.

(** ** Reading CSV text back *)

(** Where a reader of CSV text is: at the start of a field, inside a
    bare field, inside a quoted field, or after a quote met inside a
    quoted field. *)
Inductive rstate : Type := FieldStart | InField | InQuoted | AfterQuote.

Definition snoc_char (s : string) (a : ascii) : string := s ++ String a EmptyString.

(** The records of a text: fields are separated by commas and records
    end at a line feed; a field may be quoted, and then holds commas
    and line feeds as they are and a quote as two; a line without any
    character is no record.  [field] and [record] are what was read of
    the record at hand. *)
Fixpoint read_records (st : rstate) (field : string) (record : list string)
    (text : string) : list (list string) :=
  match text with
  | EmptyString =>
      match st, record with
      | FieldStart, [] => []
      | _, _ => [(record ++ [field])%list]
      end
  | String c text' =>
      match st with
      | FieldStart =>
          if decide (c = dquote) then read_records InQuoted EmptyString record text'
          else if decide (c = ","%char)
          then read_records FieldStart EmptyString (record ++ [EmptyString])%list text'
          else if decide (c = ascii_of_nat 10)
          then match record with
               | [] => read_records FieldStart EmptyString [] text'
               | _ :: _ =>
                   (record ++ [EmptyString])%list
                   :: read_records FieldStart EmptyString [] text'
               end
          else read_records InField (String c EmptyString) record text'
      | InField =>
          if decide (c = ","%char)
          then read_records FieldStart EmptyString (record ++ [field])%list text'
          else if decide (c = ascii_of_nat 10)
          then (record ++ [field])%list :: read_records FieldStart EmptyString [] text'
          else read_records InField (snoc_char field c) record text'
      | InQuoted =>
          if decide (c = dquote) then read_records AfterQuote field record text'
          else read_records InQuoted (snoc_char field c) record text'
      | AfterQuote =>
          if decide (c = dquote) then read_records InQuoted (snoc_char field c) record text'
          else if decide (c = ","%char)
          then read_records FieldStart EmptyString (record ++ [field])%list text'
          else if decide (c = ascii_of_nat 10)
          then (record ++ [field])%list :: read_records FieldStart EmptyString [] text'
          else read_records InField (snoc_char field c) record text'
      end
  end.

Definition csv_records (text : string) : list (list string) :=
  read_records FieldStart EmptyString [] text.

(** ** The transformation on the value of a table *)

Section Values.

Variable py_float : string -> option float.

(** The float a value of the billing column becomes. *)
Definition coerce (o : pyobj) : option float :=
  obj_float py_float (obj_replace "$" EmptyString o).

(** What the billing column becomes, value by value. *)
Definition coerced_to (o : pyobj) (x : float) : Prop :=
  match o with
  | PyStr s => py_float (remove_dollars s) = Some x
  | PyNaN => x = F64.nan
  end.

(** Line 39 on the value of the new table. *)
Definition coerce_billing (d : DataFrame) : result DataFrame :=
  match column d "billing_amount" with
  | None => Raise (KeyError "billing_amount")
  | Some billing =>
      match str_accessor billing with
      | Raise e => Raise e
      | Ok strs =>
          match astype_float py_float (str_replace "$" EmptyString strs) with
          | Raise e => Raise e
          | Ok converted => Ok (set_frame_column d "billing_amount" converted)
          end
      end
  end.

(** Line 40 on the value of the new table. *)
Definition add_total (d : DataFrame) : result DataFrame :=
  match column d "billing_amount" with
  | None => Raise (KeyError "billing_amount")
  | Some billing =>
      match column d "tax_amount" with
      | None => Raise (KeyError "tax_amount")
      | Some tax =>
          match series_add billing tax with
          | Raise e => Raise e
          | Ok total => Ok (set_frame_column d "total_charges" total)
          end
      end
  end.

Definition transform_frame (d : DataFrame) : result DataFrame :=
  match coerce_billing (drop_duplicates_frame d) with
  | Raise e => Raise e
  | Ok d1 => add_total d1
  end.

End Values.

(** ** The tables of the tests and of the examples *)

(** A world that holds one table, under the reference [0], and no file. *)
Definition world_of (d : DataFrame) : World := mkWorld {[ 0%nat := d ]} ∅ ∅.

(** The table of [test_data_transformation]. *)
Definition input_data : DataFrame :=
  mkFrame [0; 1; 2; 3; 4]
    [("customer_id", SInt64 [1; 2; 3; 4; 5]);
     ("billing_amount",
      SObject [PyStr "$100"; PyStr "$200"; PyStr "$300"; PyStr "$400"; PyStr "$500"]);
     ("tax_amount", SInt64 [10; 20; 30; 40; 50])].

(** The table of the third case of [test_data_transformation]. *)
Definition missing_columns_data : DataFrame :=
  mkFrame [0; 1; 2] [("customer_id", SInt64 [1; 2; 3])].

(** A table with rows and no [tax_amount], whose billing amount is no
    number. *)
Definition missing_tax_data : DataFrame :=
  mkFrame [0] [("customer_id", SInt64 [1]); ("billing_amount", SObject [PyStr "abc"])].

(** The table of the second case of [test_data_transformation],
    [pd.DataFrame()]. *)
Definition empty_data : DataFrame := mkFrame [] [].

(** Two customers' rows that differ in how the amount is written. *)
Definition respelled_data : DataFrame :=
  mkFrame [0; 1]
    [("customer_id", SInt64 [1; 1]);
     ("billing_amount", SObject [PyStr "$100"; PyStr "100"]);
     ("tax_amount", SInt64 [10; 10])].

(** A billing amount with the dollar sign inside. *)
Definition inner_dollar_data : DataFrame :=
  mkFrame [0] [("billing_amount", SObject [PyStr "1$00"]); ("tax_amount", SInt64 [10])].

(** A table whose billing amounts are numbers already. *)
Definition numeric_data : DataFrame :=
  mkFrame [0; 1]
    [("billing_amount", SInt64 [100; 200]); ("tax_amount", SInt64 [10; 20])].

(** A customer without an amount and a customer without a tax. *)
Definition incomplete_data : DataFrame :=
  mkFrame [0; 1]
    [("customer_id", SInt64 [1; 2]);
     ("billing_amount", SObject [PyNaN; PyStr "$200"]);
     ("tax_amount", SFloat64 [F64.of_Z 10; F64.nan])].

(** The columns of the table of [test_data_loading], without rows. *)
Definition loaded_columns : DataFrame :=
  mkFrame []
    [("customer_id", SInt64 []); ("billing_amount", SInt64 []);
     ("tax_amount", SInt64 []); ("total_charges", SInt64 [])].

(** What [data_transformation] returns for [input_data]. *)
Definition transformed_data : DataFrame :=
  mkFrame [0; 1; 2; 3; 4]
    [("customer_id", SInt64 [1; 2; 3; 4; 5]);
     ("billing_amount", SFloat64 (F64.of_Z <$> [100; 200; 300; 400; 500]));
     ("tax_amount", SInt64 [10; 20; 30; 40; 50]);
     ("total_charges", SFloat64 (F64.of_Z <$> [110; 220; 330; 440; 550]))].

(** * Properties *)

(** ** Boolean indexing *)

Section KeepRows.

Context {A B : Type}.

Lemma keep_rows_nil_r (mask : list bool) : keep_rows mask (@nil A) = [].
Proof. by destruct mask. Qed.

Lemma keep_rows_fmap (f : A -> B) (mask : list bool) (l : list A) :
  keep_rows mask (f <$> l) = f <$> keep_rows mask l.
Proof.
  revert l; induction mask as [|b mask IH]; intros [|x l]; simpl; try done.
  destruct b; simpl; by rewrite IH.
Qed.

Lemma keep_rows_sublist (mask : list bool) (l : list A) :
  sublist (keep_rows mask l) l.
Proof.
  revert l; induction mask as [|b mask IH]; intros [|x l]; simpl;
    try (by apply sublist_nil_l).
  destruct b; [apply sublist_skip | apply sublist_cons]; apply IH.
Qed.

Lemma keep_rows_elem_of (mask : list bool) (l : list A) (x : A) :
  x ∈ keep_rows mask l -> x ∈ l.
Proof. intros Hx. eapply elem_of_sublist; [done | apply keep_rows_sublist]. Qed.

(** Two lists of one length lose the same positions. *)
Lemma keep_rows_length (mask : list bool) (l : list A) (k : list B) :
  length l = length k ->
  length (keep_rows mask l) = length (keep_rows mask k).
Proof.
  revert l k; induction mask as [|b mask IH]; intros [|x l] [|y k] Hlen;
    simpl in *; try done.
  destruct b; simpl; auto.
Qed.

Lemma keep_rows_head (mask : list bool) (l : list A) :
  head (keep_rows (true :: mask) l) = head l.
Proof. by destruct l. Qed.

Lemma keep_rows_tail_true (mask : list bool) (l : list A) :
  tail (keep_rows (true :: mask) l) = keep_rows mask (tail l).
Proof. destruct l; simpl; [by rewrite keep_rows_nil_r | done]. Qed.

Lemma keep_rows_tail_false (mask : list bool) (l : list A) :
  keep_rows (false :: mask) l = keep_rows mask (tail l).
Proof. destruct l; simpl; [by rewrite keep_rows_nil_r | done]. Qed.

End KeepRows.

(** ** Rows and columns *)

Lemma frame_rows_rows_of (d : DataFrame) :
  frame_rows d = rows_of (nrows d) ((fun c => series_cells c.2) <$> df_columns d).
Proof.
  unfold frame_rows, rows_of, frame_row. apply list_fmap_ext; intros _ i _.
  by rewrite <- list_fmap_compose.
Qed.

Lemma rows_of_S (n : nat) (cols : list (list cell)) :
  rows_of (S n) cols = (head <$> cols) :: rows_of n (tail <$> cols).
Proof.
  unfold rows_of. simpl. f_equal.
  - apply list_fmap_ext; intros _ c _. by destruct c.
  - rewrite <- fmap_S_seq, <- list_fmap_compose.
    apply list_fmap_ext; intros _ i _. simpl.
    rewrite <- list_fmap_compose. apply list_fmap_ext; intros _ c _. by destruct c.
Qed.

(** Masking the columns masks the rows. *)
Lemma rows_of_keep_rows (mask : list bool) (idx : list Z) (cols : list (list cell)) :
  length idx = length mask ->
  rows_of (length (keep_rows mask idx)) (keep_rows mask <$> cols)
  = keep_rows mask (rows_of (length mask) cols).
Proof.
  revert idx cols; induction mask as [|b mask IH]; intros [|x idx] cols Hlen;
    simpl in Hlen; try done.
  injection Hlen as Hlen. cbn [length]. rewrite rows_of_S.
  destruct b.
  - cbn [keep_rows length]. rewrite rows_of_S. f_equal.
    + rewrite <- list_fmap_compose. apply list_fmap_ext; intros _ c _.
      apply (keep_rows_head mask c).
    + rewrite <- (IH idx (tail <$> cols) Hlen), <- !list_fmap_compose. f_equal.
      apply list_fmap_ext; intros _ c _. apply (keep_rows_tail_true mask c).
  - cbn [keep_rows]. rewrite <- (IH idx (tail <$> cols) Hlen), <- list_fmap_compose.
    f_equal. apply list_fmap_ext; intros _ c _. apply (keep_rows_tail_false mask c).
Qed.

Lemma series_cells_mask (mask : list bool) (s : Series) :
  series_cells (series_mask mask s) = keep_rows mask (series_cells s).
Proof. destruct s; simpl; by rewrite keep_rows_fmap. Qed.

Lemma frame_rows_mask (mask : list bool) (d : DataFrame) :
  length mask = nrows d ->
  frame_rows (frame_mask mask d) = keep_rows mask (frame_rows d).
Proof.
  intros Hlen. rewrite !frame_rows_rows_of. rewrite <- Hlen.
  rewrite <- (rows_of_keep_rows mask (df_index d)) by done.
  unfold nrows, frame_mask; simpl.
  f_equal. rewrite <- !list_fmap_compose. apply list_fmap_ext; intros _ c _.
  simpl. apply series_cells_mask.
Qed.

(** ** Deduplication *)

Section Duplicated.

Context {A : Type} (key : A -> list (option cell)).

Lemma kept_from_cons (seen : list (list (option cell))) (x : A) (l : list A) :
  kept_from key seen (x :: l)
  = if bool_decide (key x ∈ seen) then kept_from key (key x :: seen) l
    else x :: kept_from key (key x :: seen) l.
Proof. unfold kept_from. simpl. by destruct (bool_decide (key x ∈ seen)). Qed.

Lemma duplicated_from_length (seen keys : list (list (option cell))) :
  length (duplicated_from seen keys) = length keys.
Proof. revert seen; induction keys as [|k keys IH]; intros seen; simpl; auto. Qed.

(** The kept rows have keys not seen before, and pairwise distinct. *)
Lemma kept_from_fresh (seen : list (list (option cell))) (l : list A) (x : A) :
  x ∈ kept_from key seen l -> key x ∉ seen.
Proof.
  revert seen; induction l as [|y l IH]; intros seen.
  - unfold kept_from; simpl. by intros ?%elem_of_nil.
  - rewrite kept_from_cons. case_bool_decide as Hy.
    + intros Hx%IH. set_solver.
    + intros [->|Hx%IH]%elem_of_cons; [done | set_solver].
Qed.

Lemma kept_from_NoDup (seen : list (list (option cell))) (l : list A) :
  NoDup (key <$> kept_from key seen l).
Proof.
  revert seen; induction l as [|y l IH]; intros seen.
  - unfold kept_from; simpl. constructor.
  - rewrite kept_from_cons. case_bool_decide as Hy; [apply IH |].
    rewrite fmap_cons. constructor; [| apply IH].
    intros (z & Hz & Hin%kept_from_fresh)%list_elem_of_fmap. set_solver.
Qed.

(** Every row has the key of a kept row, or a key seen before. *)
Lemma kept_from_cover (seen : list (list (option cell))) (l : list A) (x : A) :
  x ∈ l -> key x ∈ seen \/ key x ∈ key <$> kept_from key seen l.
Proof.
  revert seen; induction l as [|y l IH]; intros seen.
  - by intros ?%elem_of_nil.
  - rewrite kept_from_cons. intros [->|Hx]%elem_of_cons.
    + case_bool_decide; [by left | right; set_solver].
    + destruct (IH (key y :: seen) Hx) as [[Heq|Hs]%elem_of_cons | Hk].
      * rewrite Heq. case_bool_decide; [by left | right; set_solver].
      * by left.
      * right. case_bool_decide; [done |]. rewrite fmap_cons. by right.
Qed.

End Duplicated.

Lemma duplicated_length (d : DataFrame) : length (duplicated d) = nrows d.
Proof.
  unfold duplicated, frame_rows.
  by rewrite duplicated_from_length, !length_fmap, length_seq.
Qed.

(** The rows of the deduplicated frame are the rows of the frame that
    [duplicated] does not mark. *)
Lemma drop_duplicates_rows (d : DataFrame) :
  frame_empty d = false ->
  frame_rows (drop_duplicates_frame d) = kept_from row_key [] (frame_rows d).
Proof.
  intros He. unfold drop_duplicates_frame. rewrite He.
  rewrite frame_rows_mask; [done |].
  by rewrite length_fmap, duplicated_length.
Qed.

Lemma drop_duplicates_sublist (d : DataFrame) :
  sublist (frame_rows (drop_duplicates_frame d)) (frame_rows d).
Proof.
  destruct (frame_empty d) eqn:He.
  - unfold drop_duplicates_frame. by rewrite He.
  - rewrite drop_duplicates_rows by done. apply keep_rows_sublist.
Qed.

(** In a frame that has a column, no two rows kept are equal. *)
Lemma drop_duplicates_NoDup (d : DataFrame) :
  df_columns d <> [] ->
  NoDup (frame_rows (drop_duplicates_frame d)).
Proof.
  intros Hc. destruct (frame_empty d) eqn:He.
  - unfold drop_duplicates_frame, frame_empty in *. rewrite He.
    apply orb_true_iff in He as [Hi%bool_decide_eq_true | ?%bool_decide_eq_true];
      [| done].
    unfold frame_rows, nrows. rewrite Hi. constructor.
  - rewrite drop_duplicates_rows by done.
    apply (NoDup_fmap_1 row_key), kept_from_NoDup.
Qed.

(** Every row of the frame agrees, up to the classes of [duplicated],
    with a row that is kept. *)
Lemma drop_duplicates_cover (d : DataFrame) (r : list (option cell)) :
  r ∈ frame_rows d ->
  exists r', r' ∈ frame_rows (drop_duplicates_frame d) /\ row_key r' = row_key r.
Proof.
  intros Hr. destruct (frame_empty d) eqn:He.
  - unfold drop_duplicates_frame. rewrite He. eauto.
  - rewrite drop_duplicates_rows by done.
    destruct (kept_from_cover row_key [] _ _ Hr) as [?%elem_of_nil | Hk]; [done |].
    apply list_elem_of_fmap in Hk as (r' & Heq & Hin). eauto.
Qed.

(** ** Columns *)

Lemma find_column_set_eq (cols : list (string * Series)) (name : string) (s : Series) :
  find_column (set_column cols name s) name = Some s.
Proof.
  unfold set_column. case_bool_decide as Hin.
  - induction cols as [|[n c] cols IH]; [by apply elem_of_nil in Hin |].
    simpl in *. destruct (decide (n = name)) as [->|Hne]; simpl.
    + by rewrite decide_True.
    + rewrite decide_False by done. apply IH.
      apply elem_of_cons in Hin as [?|?]; [congruence | done].
  - induction cols as [|[n c] cols IH]; simpl.
    + by rewrite decide_True.
    + rewrite fmap_cons, not_elem_of_cons in Hin. destruct Hin as [Hn Hin].
      rewrite decide_False by done. by apply IH.
Qed.

Lemma find_column_set_ne (cols : list (string * Series)) (name other : string)
    (s : Series) :
  name <> other ->
  find_column (set_column cols name s) other = find_column cols other.
Proof.
  intros Hne. unfold set_column. case_bool_decide as Hin.
  - clear Hin. induction cols as [|[n c] cols IH]; [done |]. simpl.
    destruct (decide (n = name)) as [->|Hn]; simpl.
    + by rewrite !decide_False by done.
    + destruct (decide (n = other)); [done | apply IH].
  - clear Hin. induction cols as [|[n c] cols IH]; simpl.
    + by rewrite decide_False.
    + destruct (decide (n = other)); [done | apply IH].
Qed.

Lemma find_column_mask (mask : list bool) (cols : list (string * Series))
    (name : string) :
  find_column ((fun c : string * Series => (c.1, series_mask mask c.2)) <$> cols) name
  = series_mask mask <$> find_column cols name.
Proof.
  induction cols as [|[n c] cols IH]; [done |]. simpl.
  destruct (decide (n = name)); [done | apply IH].
Qed.

Lemma column_drop_duplicates (d : DataFrame) (name : string) :
  column (drop_duplicates_frame d) name = dedup_series d <$> column d name.
Proof.
  unfold drop_duplicates_frame, dedup_series, column. destruct (frame_empty d).
  - by destruct (find_column _ _).
  - apply find_column_mask.
Qed.

Lemma labels_drop_duplicates (d : DataFrame) :
  labels (drop_duplicates_frame d) = labels d.
Proof.
  unfold drop_duplicates_frame, labels. destruct (frame_empty d); [done |].
  simpl. rewrite <- list_fmap_compose. by apply list_fmap_ext.
Qed.

Lemma dedup_series_cells_elem_of (d : DataFrame) (s : Series) (c : cell) :
  c ∈ series_cells (dedup_series d s) -> c ∈ series_cells s.
Proof.
  unfold dedup_series. destruct (frame_empty d); [done |].
  rewrite series_cells_mask. apply keep_rows_elem_of.
Qed.

(** ** Running the monad *)

Lemma bind_run {A B : Type} (m : M A) (k : A -> M B) (w : World) :
  (m ≫= k) w
  = match m w with
    | (Ok a, w') => k a w'
    | (Raise e, w') => (Raise e, w')
    end.
Proof. done. Qed.

Lemma lift_run {A : Type} (x : result A) (w : World) : lift x w = (x, w).
Proof. done. Qed.

Lemma frames_with_frames_eq (f : gmap nat DataFrame) (w : World) (r : ref)
    (d : DataFrame) :
  frames (with_frames (<[r := d]> f) w) !! r = Some d.
Proof. simpl. apply lookup_insert_eq. Qed.

Lemma with_frames_insert (f : gmap nat DataFrame) (w : World) (r : ref)
    (d d' : DataFrame) :
  with_frames (<[r := d']> (frames (with_frames (<[r := d]> f) w)))
              (with_frames (<[r := d]> f) w)
  = with_frames (<[r := d']> f) w.
Proof. unfold with_frames; simpl. by rewrite insert_insert_eq. Qed.

Lemma drop_duplicates_run (w : World) (data : ref) (d : DataFrame) :
  frames w !! data = Some d ->
  drop_duplicates data w
  = (Ok (fresh (dom (frames w))),
     with_frames (<[fresh (dom (frames w)) := drop_duplicates_frame d]> (frames w)) w).
Proof. intros Hd. unfold drop_duplicates. rewrite bind_run. unfold load. by rewrite Hd. Qed.

Lemma getitem_run (w : World) (data : ref) (name : string) (d : DataFrame) :
  frames w !! data = Some d ->
  getitem data name w
  = (match column d name with Some s => Ok s | None => Raise (KeyError name) end, w).
Proof.
  intros Hd. unfold getitem. rewrite bind_run. unfold load. rewrite Hd.
  by destruct (column d name).
Qed.

Lemma setitem_run (w : World) (data : ref) (name : string) (s : Series)
    (d : DataFrame) :
  frames w !! data = Some d ->
  setitem data name s w
  = (Ok tt, with_frames (<[data := set_frame_column d name s]> (frames w)) w).
Proof. intros Hd. unfold setitem. rewrite bind_run. unfold load. by rewrite Hd. Qed.

Section Transformation.

Variable py_float : string -> option float.

(** [data_transformation] allocates one object, works on it, and
    computes [transform_frame] on the value of its argument. *)
Lemma data_transformation_run (w : World) (data : ref) (d : DataFrame) :
  frames w !! data = Some d ->
  exists d',
    data_transformation py_float data w
    = (match transform_frame py_float d with
       | Ok _ => Ok (fresh (dom (frames w)))
       | Raise e => Raise e
       end,
       with_frames (<[fresh (dom (frames w)) := d']> (frames w)) w)
    /\ forall dd, transform_frame py_float d = Ok dd -> d' = dd.
Proof.
  intros Hd.
  unfold data_transformation, transform_frame, coerce_billing, add_total.
  set (r := fresh (dom (frames w))). set (d0 := drop_duplicates_frame d).
  rewrite bind_run, (drop_duplicates_run _ _ _ Hd). fold r d0.
  rewrite bind_run, (getitem_run _ r _ d0) by apply frames_with_frames_eq.
  destruct (column d0 "billing_amount") as [billing|];
    [| exists d0; split; [done | discriminate]].
  rewrite bind_run, lift_run.
  destruct (str_accessor billing) as [strs|e];
    [| exists d0; split; [done | discriminate]].
  rewrite bind_run, lift_run.
  destruct (astype_float py_float (str_replace "$" EmptyString strs))
    as [converted|e]; [| exists d0; split; [done | discriminate]].
  rewrite bind_run, (setitem_run _ r _ _ d0) by apply frames_with_frames_eq.
  rewrite with_frames_insert.
  set (d1 := set_frame_column d0 "billing_amount" converted).
  rewrite bind_run, (getitem_run _ r _ d1) by apply frames_with_frames_eq.
  destruct (column d1 "billing_amount") as [b|];
    [| exists d1; split; [done | discriminate]].
  rewrite bind_run, (getitem_run _ r _ d1) by apply frames_with_frames_eq.
  destruct (column d1 "tax_amount") as [t|];
    [| exists d1; split; [done | discriminate]].
  rewrite bind_run, lift_run.
  destruct (series_add b t) as [total|e];
    [| exists d1; split; [done | discriminate]].
  rewrite bind_run, (setitem_run _ r _ _ d1) by apply frames_with_frames_eq.
  rewrite with_frames_insert.
  exists (set_frame_column d1 "total_charges" total). split; [done |].
  by intros dd [= <-].
Qed.

Lemma data_transformation_dangling (w : World) (data : ref) :
  frames w !! data = None ->
  data_transformation py_float data w = (Raise ReferenceError, w).
Proof.
  intros Hd. unfold data_transformation, drop_duplicates, mbind, M_bind, load.
  by rewrite Hd.
Qed.

End Transformation.

(** ** Addition of columns, row by row *)

Lemma series_add_cells (a b c : Series) (i : nat) (x y : cell) :
  series_add a b = Ok c ->
  series_cells a !! i = Some x ->
  series_cells b !! i = Some y ->
  exists z, series_cells c !! i = Some z /\ cell_add x y = Ok z.
Proof.
  intros Hadd Hx Hy.
  assert (Hobj : forall l, mapM obj_add (zip (series_cells a) (series_cells b)) = Some l ->
                   exists z, series_cells (SObject l) !! i = Some z /\ cell_add x y = Ok z).
  { intros l Hl. apply mapM_Some in Hl.
    assert (Hz : zip (series_cells a) (series_cells b) !! i = Some (x, y)).
    { rewrite lookup_zip_with, Hx; simpl. by rewrite Hy. }
    destruct (Forall2_lookup_l _ _ _ _ _ Hl Hz) as (o & Ho & Hadd').
    unfold obj_add in Hadd'; simpl in Hadd'.
    destruct (cell_add x y) as [[| |o']|] eqn:Hc; try done.
    injection Hadd' as ->. exists (CObj o). split; [| done].
    simpl. by rewrite list_lookup_fmap, Ho. }
  destruct a as [la|la|la], b as [lb|lb|lb]; simpl in Hadd;
    try (destruct (mapM obj_add _) as [l|] eqn:Hl; [| done];
         injection Hadd as <-; by apply Hobj);
    injection Hadd as <-; simpl in *;
    rewrite list_lookup_fmap in Hx; rewrite list_lookup_fmap in Hy;
    destruct (la !! i) as [u|] eqn:Hu; try done;
    destruct (lb !! i) as [v|] eqn:Hv; try done;
    injection Hx as <-; injection Hy as <-;
    eexists; (split; [| done]);
    by rewrite list_lookup_fmap, lookup_zip_with, Hu; simpl; rewrite Hv.
Qed.

Lemma series_add_length (a b c : Series) :
  series_add a b = Ok c ->
  series_len c = (series_len a `min` series_len b)%nat.
Proof.
  unfold series_len.
  assert (Hobj : forall l, mapM obj_add (zip (series_cells a) (series_cells b)) = Some l ->
            length (series_cells (SObject l))
            = (length (series_cells a) `min` length (series_cells b))%nat).
  { intros l Hl%mapM_Some%Forall2_length. simpl.
    by rewrite length_fmap, <- Hl, length_zip_with. }
  intros Hadd.
  destruct a as [la|la|la], b as [lb|lb|lb]; simpl in Hadd;
    try (destruct (mapM obj_add _) as [l|] eqn:Hl; [| done];
         injection Hadd as <-; by apply Hobj);
    injection Hadd as <-; simpl; by rewrite !length_fmap, length_zip_with.
Qed.

(** ** What a successful transformation returns *)

Section TransformationFacts.

Variable py_float : string -> option float.

Lemma coerce_billing_Ok (d d1 : DataFrame) :
  coerce_billing py_float d = Ok d1 ->
  exists l fl,
    column d "billing_amount" = Some (SObject l)
    /\ mapM (coerce py_float) l = Some fl
    /\ d1 = set_frame_column d "billing_amount" (SFloat64 fl).
Proof.
  unfold coerce_billing. destruct (column d "billing_amount") as [[l|l|l]|]; try done.
  simpl. destruct (mapM _ _) as [fl|] eqn:Hfl; [| done]. intros [= <-].
  exists l, fl. split; [done |]. split; [| done].
  apply mapM_Some. apply mapM_Some in Hfl. by apply Forall2_fmap_l in Hfl.
Qed.

Lemma transform_frame_Ok (d dd : DataFrame) :
  transform_frame py_float d = Ok dd ->
  exists l fl tax total,
    column (drop_duplicates_frame d) "billing_amount" = Some (SObject l)
    /\ mapM (coerce py_float) l = Some fl
    /\ column (drop_duplicates_frame d) "tax_amount" = Some tax
    /\ series_add (SFloat64 fl) tax = Ok total
    /\ dd = set_frame_column
              (set_frame_column (drop_duplicates_frame d) "billing_amount" (SFloat64 fl))
              "total_charges" total.
Proof.
  unfold transform_frame.
  destruct (coerce_billing py_float _) as [d1|] eqn:H1; [| done].
  apply coerce_billing_Ok in H1 as (l & fl & Hl & Hfl & ->).
  unfold add_total, column at 1 2. simpl.
  rewrite find_column_set_eq, find_column_set_ne by done.
  fold (column (drop_duplicates_frame d) "tax_amount").
  destruct (column _ "tax_amount") as [tax|]; [| done].
  destruct (series_add _ tax) as [total|] eqn:Ht; [| done]. intros [= <-].
  by exists l, fl, tax, total.
Qed.

(** The columns of the table returned. *)
Lemma transform_frame_columns (d dd : DataFrame) :
  transform_frame py_float d = Ok dd ->
  exists l fl tax total,
    column (drop_duplicates_frame d) "billing_amount" = Some (SObject l)
    /\ mapM (coerce py_float) l = Some fl
    /\ series_add (SFloat64 fl) tax = Ok total
    /\ column dd "billing_amount" = Some (SFloat64 fl)
    /\ column dd "tax_amount" = Some tax
    /\ column (drop_duplicates_frame d) "tax_amount" = Some tax
    /\ column dd "total_charges" = Some total
    /\ df_index dd = df_index (drop_duplicates_frame d)
    /\ forall name, name <> "billing_amount" -> name <> "total_charges" ->
         column dd name = column (drop_duplicates_frame d) name.
Proof.
  intros (l & fl & tax & total & Hl & Hfl & Htax & Hadd & ->)%transform_frame_Ok.
  exists l, fl, tax, total. unfold column in *; simpl.
  rewrite find_column_set_eq.
  rewrite !(find_column_set_ne _ "total_charges") by done.
  rewrite find_column_set_eq, find_column_set_ne by done.
  repeat split; try done.
  intros name Hb Ht. by rewrite !find_column_set_ne by done.
Qed.

End TransformationFacts.

(** ** Well-formed frames *)

Lemma find_column_elem_of (cols : list (string * Series)) (name : string) (s : Series) :
  find_column cols name = Some s -> (name, s) ∈ cols.
Proof.
  induction cols as [|[n c] cols IH]; [done |]. simpl.
  destruct (decide (n = name)) as [->|]; [intros [= ->]; by left |].
  intros Hs. right. by apply IH.
Qed.

Lemma wf_frame_column_len (d : DataFrame) (name : string) (s : Series) :
  wf_frame d -> column d name = Some s -> series_len s = nrows d.
Proof.
  intros [_ Hlen] Hs%find_column_elem_of.
  rewrite Forall_forall in Hlen. apply (Hlen _ Hs).
Qed.

Lemma wf_drop_duplicates_column_len (d : DataFrame) (name : string) (s : Series) :
  wf_frame d ->
  column (drop_duplicates_frame d) name = Some s ->
  series_len s = nrows (drop_duplicates_frame d).
Proof.
  intros Hwf. rewrite column_drop_duplicates.
  destruct (column d name) as [c|] eqn:Hc; [| done]. intros [= <-].
  pose proof (wf_frame_column_len _ _ _ Hwf Hc) as Hlen.
  unfold dedup_series, drop_duplicates_frame. destruct (frame_empty d); [done |].
  unfold series_len, nrows in *. rewrite series_cells_mask. simpl.
  by apply keep_rows_length.
Qed.

(** ** Values of a column before and after deduplication *)

Lemma cell_key_obj (c : cell) (o : pyobj) : cell_key c = CObj o -> c = CObj o.
Proof. by destruct c. Qed.

Lemma dedup_series_object (d : DataFrame) (l : list pyobj) :
  exists l', dedup_series d (SObject l) = SObject l' /\ forall o, o ∈ l' -> o ∈ l.
Proof.
  unfold dedup_series. destruct (frame_empty d); [by exists l |].
  simpl. eexists; split; [done |]. intros o. apply keep_rows_elem_of.
Qed.

(** In a well-formed frame every value of a text column is still there
    after deduplication: it is in the first of the rows equal to its
    row. *)
Lemma dedup_series_object_cover (d : DataFrame) (name : string) (l l' : list pyobj)
    (o : pyobj) :
  wf_frame d ->
  column d name = Some (SObject l) ->
  dedup_series d (SObject l) = SObject l' ->
  o ∈ l -> o ∈ l'.
Proof.
  intros Hwf Hcol Hl' Ho.
  pose proof (wf_frame_column_len _ _ _ Hwf Hcol) as Hlen.
  unfold series_len in Hlen; simpl in Hlen; rewrite length_fmap in Hlen.
  unfold dedup_series in Hl'. destruct (frame_empty d) eqn:He; [by injection Hl' as <- |].
  simpl in Hl'. injection Hl' as <-.
  apply list_elem_of_lookup in Ho as [i Hi].
  apply find_column_elem_of, list_elem_of_lookup in Hcol as [p Hp].
  assert (Hrow : frame_row d i ∈ frame_rows d).
  { unfold frame_rows. apply list_elem_of_fmap. exists i. split; [done |].
    apply elem_of_seq. apply lookup_lt_Some in Hi. lia. }
  destruct (drop_duplicates_cover d _ Hrow) as (r' & Hr' & Hkey).
  unfold frame_rows in Hr'. apply list_elem_of_fmap in Hr' as (k & -> & _).
  assert (Hpos : row_key (frame_row (drop_duplicates_frame d) k) !! p
                 = row_key (frame_row d i) !! p) by by rewrite Hkey.
  unfold row_key, frame_row, drop_duplicates_frame in Hpos. rewrite He in Hpos.
  simpl in Hpos. rewrite !list_lookup_fmap, Hp in Hpos. simpl in Hpos.
  rewrite !list_lookup_fmap, Hi in Hpos. simpl in Hpos.
  destruct (keep_rows _ l !! k) as [o'|] eqn:Hk; [| done]. simpl in Hpos.
  injection Hpos as ->. by apply list_elem_of_lookup_2 in Hk.
Qed.

(** ** How the transformation ends *)

Section Outcome.

Variable py_float : string -> option float.

Lemma data_transformation_result (w : World) (data : ref) (d : DataFrame) :
  frames w !! data = Some d ->
  (data_transformation py_float data w).1
  = match transform_frame py_float d with
    | Ok _ => Ok (fresh (dom (frames w)))
    | Raise e => Raise e
    end.
Proof.
  intros Hd. destruct (data_transformation_run py_float w data d Hd) as (d' & -> & _).
  done.
Qed.

Lemma data_transformation_Ok (w w' : World) (data out : ref) (d : DataFrame) :
  frames w !! data = Some d ->
  data_transformation py_float data w = (Ok out, w') ->
  exists dd,
    transform_frame py_float d = Ok dd
    /\ out = fresh (dom (frames w))
    /\ w' = with_frames (<[out := dd]> (frames w)) w
    /\ frames w' !! out = Some dd.
Proof.
  intros Hd Hrun.
  destruct (data_transformation_run py_float w data d Hd) as (d' & Hrun' & Hd').
  rewrite Hrun' in Hrun. clear Hrun'.
  destruct (transform_frame py_float d) as [dd|]; [| done].
  injection Hrun as <- <-. rewrite (Hd' dd eq_refl). exists dd.
  repeat split; try done. apply lookup_insert_eq.
Qed.

Lemma transform_no_billing (d : DataFrame) :
  column d "billing_amount" = None ->
  transform_frame py_float d = Raise (KeyError "billing_amount").
Proof.
  intros Hb. unfold transform_frame, coerce_billing.
  by rewrite column_drop_duplicates, Hb.
Qed.

Lemma transform_numeric_billing (d : DataFrame) (s : Series) :
  column d "billing_amount" = Some s ->
  (forall l, s <> SObject l) ->
  transform_frame py_float d = Raise AttributeError.
Proof.
  intros Hb Hs. unfold transform_frame, coerce_billing.
  rewrite column_drop_duplicates, Hb. simpl.
  unfold dedup_series. destruct (frame_empty d), s; simpl; try done;
    by destruct (Hs l).
Qed.

(** On a column of strings, line 39 succeeds when every value that
    deduplication keeps can be converted. *)
Lemma coerce_billing_object (d : DataFrame) (l : list pyobj) :
  column d "billing_amount" = Some (SObject l) ->
  exists l', dedup_series d (SObject l) = SObject l'
    /\ coerce_billing py_float (drop_duplicates_frame d)
       = match mapM (coerce py_float) l' with
         | Some fl =>
             Ok (set_frame_column (drop_duplicates_frame d) "billing_amount"
                   (SFloat64 fl))
         | None => Raise ValueError
         end.
Proof.
  intros Hb. destruct (dedup_series_object d l) as (l' & Hl' & _).
  exists l'. split; [done |]. unfold coerce_billing.
  rewrite column_drop_duplicates, Hb. simpl. rewrite Hl'. simpl.
  assert (Heq : mapM (obj_float py_float) (obj_replace "$" EmptyString <$> l')
                = mapM (coerce py_float) l').
  { destruct (mapM (coerce py_float) l') as [fl|] eqn:Hfl.
    - apply mapM_Some. apply mapM_Some in Hfl. by apply Forall2_fmap_l.
    - apply mapM_None. apply mapM_None in Hfl. by apply Exists_fmap. }
  rewrite Heq. by destruct (mapM (coerce py_float) l').
Qed.

Lemma transform_unparsable (d : DataFrame) (l : list pyobj) :
  wf_frame d ->
  column d "billing_amount" = Some (SObject l) ->
  Exists (fun o => coerce py_float o = None) l ->
  transform_frame py_float d = Raise ValueError.
Proof.
  intros Hwf Hb (o & Ho & Hnone)%Exists_exists.
  destruct (coerce_billing_object d l Hb) as (l' & Hl' & Hc).
  unfold transform_frame. rewrite Hc.
  assert (Hfail : mapM (coerce py_float) l' = None).
  { apply mapM_None, Exists_exists. exists o. split; [| done].
    by apply (dedup_series_object_cover d "billing_amount" l). }
  by rewrite Hfail.
Qed.

Lemma transform_parsable (d : DataFrame) (l : list pyobj) :
  column d "billing_amount" = Some (SObject l) ->
  Forall (fun o => is_Some (coerce py_float o)) l ->
  exists l' fl,
    dedup_series d (SObject l) = SObject l'
    /\ mapM (coerce py_float) l' = Some fl
    /\ transform_frame py_float d
       = add_total (set_frame_column (drop_duplicates_frame d) "billing_amount"
                      (SFloat64 fl)).
Proof.
  intros Hb Hall.
  destruct (coerce_billing_object d l Hb) as (l' & Hl' & Hc).
  destruct (dedup_series_object d l) as (l'' & Hl'' & Hsub).
  rewrite Hl' in Hl''. injection Hl'' as <-.
  destruct (mapM (coerce py_float) l') as [fl|] eqn:Hfl.
  - exists l', fl. repeat split; try done. unfold transform_frame. by rewrite Hc.
  - apply mapM_None, Exists_exists in Hfl as (o & Ho%Hsub & Hnone).
    rewrite Forall_forall in Hall. destruct (Hall o Ho) as [x Hx]. congruence.
Qed.

Lemma add_total_columns (d : DataFrame) (fl : list float) :
  add_total (set_frame_column d "billing_amount" (SFloat64 fl))
  = match column d "tax_amount" with
    | None => Raise (KeyError "tax_amount")
    | Some tax =>
        match series_add (SFloat64 fl) tax with
        | Raise e => Raise e
        | Ok total =>
            Ok (set_frame_column (set_frame_column d "billing_amount" (SFloat64 fl))
                  "total_charges" total)
        end
    end.
Proof.
  unfold add_total, column; simpl.
  by rewrite find_column_set_eq, find_column_set_ne.
Qed.

End Outcome.

(** ** Removing the dollar signs *)

Lemma replace_char_remove_dollars (s : string) :
  replace_char "$" EmptyString s = remove_dollars s.
Proof.
  unfold remove_dollars. induction s as [|a s IH]; [done |].
  cbn [replace_char list_ascii_of_string]. rewrite filter_cons.
  destruct (decide (a = "$"%char)) as [->|Hne].
  - rewrite decide_False by (intros Hc; by apply Hc). simpl. apply IH.
  - rewrite decide_True by done. simpl. by rewrite IH.
Qed.

Lemma remove_dollars_none_left (s : string) :
  "$"%char ∉ list_ascii_of_string (remove_dollars s).
Proof.
  unfold remove_dollars. rewrite list_ascii_of_string_of_list_ascii.
  intros [Hne _]%list_elem_of_filter. by apply Hne.
Qed.

Lemma remove_dollars_id (s : string) :
  "$"%char ∉ list_ascii_of_string s -> remove_dollars s = s.
Proof.
  unfold remove_dollars. induction s as [|a s IH]; [done |].
  cbn [list_ascii_of_string]. rewrite not_elem_of_cons. intros [Hne Hs].
  rewrite filter_cons, decide_True by done. simpl. by rewrite IH.
Qed.

Lemma coerce_coerced_to (py_float : string -> option float) (o : pyobj) (x : float) :
  coerce py_float o = Some x <-> coerced_to py_float o x.
Proof.
  unfold coerce, coerced_to. destruct o as [s|]; simpl.
  - by rewrite replace_char_remove_dollars.
  - split; [by intros [= <-] | by intros ->].
Qed.

(** ** Errors of the addition *)

#[local] Arguments series_add : simpl never.

Lemma series_add_raises (a b : Series) (e : exn) :
  series_add a b = Raise e -> e = TypeError.
Proof.
  unfold series_add. destruct a, b; try done;
    by (destruct (mapM obj_add _); [| intros [= <-]]).
Qed.

Lemma series_add_numeric (fl : list float) (t : Series) :
  (forall l, t <> SObject l) -> exists total, series_add (SFloat64 fl) t = Ok total.
Proof.
  intros Ht. unfold series_add. destruct t as [l|l|l]; eauto. by destruct (Ht l).
Qed.

Lemma dedup_series_numeric (d : DataFrame) (t : Series) :
  (forall l, t <> SObject l) -> forall l, dedup_series d t <> SObject l.
Proof.
  intros Ht l. unfold dedup_series. destruct (frame_empty d); [apply Ht |].
  destruct t as [l0|l0|l0]; simpl; try done. by destruct (Ht l0).
Qed.

(** ** Strings *)

Lemma append_empty_r (s : string) : (s ++ EmptyString)%string = s.
Proof.
  induction s as [|a s IH]; [done |].
  change (String a (s ++ EmptyString) = String a s). by rewrite IH.
Qed.

(** ** Reading back what [writerow] writes *)

Lemma append_cons (a : ascii) (s t : string) :
  (String a s ++ t)%string = String a (s ++ t).
Proof. done. Qed.

Lemma append_assoc (s t u : string) : ((s ++ t) ++ u)%string = (s ++ (t ++ u))%string.
Proof.
  induction s as [|a s IH]; [done |]. rewrite !append_cons. by rewrite IH.
Qed.

Lemma snoc_char_append (s : string) (a : ascii) (t : string) :
  (snoc_char s a ++ t)%string = (s ++ String a t)%string.
Proof. unfold snoc_char. by rewrite append_assoc. Qed.

Lemma needs_quote_cons (a : ascii) (s : string) :
  needs_quote (String a s) = false ->
  a <> ","%char /\ a <> dquote /\ a <> ascii_of_nat 10 /\ needs_quote s = false.
Proof.
  unfold needs_quote. simpl. intros [Ha Hs]%orb_false_iff.
  apply bool_decide_eq_false in Ha. rewrite !not_elem_of_cons in Ha.
  destruct Ha as (? & ? & ? & _). done.
Qed.

(** A bare field is read up to the separator that follows it. *)
Lemma read_bare (g field : string) (record : list string) (c : ascii) (t : string) :
  needs_quote g = false ->
  read_records InField field record (g ++ String c t)
  = read_records InField (field ++ g) record (String c t).
Proof.
  revert field; induction g as [|a g IH]; intros field Hg.
  - by rewrite append_empty_r.
  - apply needs_quote_cons in Hg as (Hcomma & Hq & Hlf & Hg).
    rewrite append_cons. cbn [read_records].
    rewrite !decide_False by done. rewrite IH by done.
    by rewrite snoc_char_append.
Qed.

(** A quoted field is read up to its closing quote, a doubled quote
    as one. *)
Lemma read_quoted (g field : string) (record : list string) (t : string) :
  read_records InQuoted field record
    (replace_char dquote (String dquote (String dquote EmptyString)) g ++ String dquote t)
  = read_records AfterQuote (field ++ g) record t.
Proof.
  revert field; induction g as [|a g IH]; intros field.
  - cbn [replace_char]. change (EmptyString ++ String dquote t)%string with (String dquote t).
    cbn [read_records]. rewrite decide_True by done. by rewrite append_empty_r.
  - cbn [replace_char]. destruct (decide (a = dquote)) as [->|Hne].
    + rewrite !append_cons.
      change (EmptyString ++ ?x)%string with x.
      cbn [read_records]. rewrite !decide_True by done.
      rewrite IH. by rewrite snoc_char_append.
    + rewrite append_cons. cbn [read_records]. rewrite decide_False by done.
      rewrite IH. by rewrite snoc_char_append.
Qed.

(** A field as [csv_field] writes it, followed by a comma. *)
Lemma read_field_comma (f : string) (record : list string) (t : string) :
  read_records FieldStart EmptyString record (csv_field f ++ String "," t)
  = read_records FieldStart EmptyString (record ++ [f])%list t.
Proof.
  unfold csv_field. destruct (needs_quote f) eqn:Hq.
  - rewrite append_cons, append_assoc, append_cons.
    change (EmptyString ++ ?x)%string with x.
    cbn [read_records]. rewrite decide_True by done.
    rewrite read_quoted. change (EmptyString ++ f)%string with f.
    cbn [read_records]. rewrite decide_False by done. by rewrite decide_True.
  - destruct f as [|a f].
    + change (EmptyString ++ ?x)%string with x. cbn [read_records].
      rewrite decide_False by done. by rewrite decide_True.
    + apply needs_quote_cons in Hq as (Hcomma & Hquote & Hlf & Hq).
      rewrite append_cons. cbn [read_records]. rewrite !decide_False by done.
      rewrite read_bare by done. cbn [read_records].
      rewrite decide_True by done. by rewrite append_cons.
Qed.

(** A field as [csv_field] writes it, followed by the end of the
    line; a line that is nothing but one bare empty field is blank. *)
Lemma read_field_end (f : string) (record : list string) (t : string) :
  ~ (record = [] /\ f = EmptyString) ->
  read_records FieldStart EmptyString record (csv_field f ++ String (ascii_of_nat 10) t)
  = (record ++ [f])%list :: read_records FieldStart EmptyString [] t.
Proof.
  intros Hblank. unfold csv_field. destruct (needs_quote f) eqn:Hq.
  - rewrite append_cons, append_assoc, append_cons.
    change (EmptyString ++ ?x)%string with x.
    cbn [read_records]. rewrite decide_True by done.
    rewrite read_quoted. change (EmptyString ++ f)%string with f.
    cbn [read_records]. rewrite !decide_False by done. by rewrite decide_True.
  - destruct f as [|a f].
    + change (EmptyString ++ ?x)%string with x. cbn [read_records].
      rewrite !decide_False by done. rewrite decide_True by done.
      destruct record; [by destruct Hblank | done].
    + apply needs_quote_cons in Hq as (Hcomma & Hquote & Hlf & Hq).
      rewrite append_cons. cbn [read_records]. rewrite !decide_False by done.
      rewrite read_bare by done. cbn [read_records].
      rewrite decide_False by done. rewrite decide_True by done.
      by rewrite append_cons.
Qed.

Lemma concat_cons_cons (sep x y : string) (l : list string) :
  String.concat sep (x :: y :: l) = (x ++ sep ++ String.concat sep (y :: l))%string.
Proof. done. Qed.

(** The fields of a line, written one after the other. *)
Lemma read_line (fs record : list string) (rest : string) :
  fs <> [] ->
  ~ (record = [] /\ fs = [EmptyString]) ->
  read_records FieldStart EmptyString record
    ((String.concat "," (csv_field <$> fs) ++ newline) ++ rest)
  = (record ++ fs)%list :: read_records FieldStart EmptyString [] rest.
Proof.
  revert record; induction fs as [|f fs IH]; intros record Hne Hblank; [done |].
  destruct fs as [|f2 fs].
  - cbn [fmap list_fmap String.concat]. rewrite append_assoc.
    change (newline ++ rest)%string with (String (ascii_of_nat 10) rest).
    apply read_field_end. intros [-> ->]. by apply Hblank.
  - rewrite !fmap_cons, concat_cons_cons, !append_assoc.
    change (","%string ++ ?x)%string with (String ","%char x).
    rewrite read_field_comma. rewrite <- !append_assoc.
    rewrite <- fmap_cons. rewrite IH; [| done |].
    + by rewrite <- app_assoc.
    + intros [Hr _]. by destruct record.
Qed.

(** What [writerow] writes is read as the row it was given; the row
    of no field is read as a blank line. *)
Lemma read_writerow (fs : list string) (rest : string) :
  csv_records (writerow fs ++ rest)
  = match fs with
    | [] => csv_records rest
    | _ :: _ => fs :: csv_records rest
    end.
Proof.
  unfold csv_records.
  destruct fs as [|f fs]; [done |].
  destruct (decide (f :: fs = [EmptyString])) as [[= -> ->]|Hne].
  - cbn [writerow]. rewrite !append_cons. cbn [read_records].
    rewrite decide_True by done. cbn [read_records].
    rewrite decide_True by done.
    change (newline ++ rest)%string with (String (ascii_of_nat 10) rest).
    cbn [read_records]. rewrite !decide_False by done. by rewrite decide_True.
  - assert (Hw : writerow (f :: fs)
                 = (String.concat "," (csv_field <$> f :: fs) ++ newline)%string).
    { destruct f, fs; done. }
    rewrite Hw. rewrite read_line; [done | done |]. by intros [_ ?].
Qed.

Lemma concat_empty_cons (x : string) (l : list string) :
  String.concat EmptyString (x :: l) = (x ++ String.concat EmptyString l)%string.
Proof. destruct l; [by rewrite append_empty_r | done]. Qed.

(** The text of several rows is read as these rows, those of no field
    left out. *)
Lemma read_written_rows (rows : list (list string)) :
  csv_records (String.concat EmptyString (writerow <$> rows))
  = filter (fun r => r <> []) rows.
Proof.
  induction rows as [|r rows IH]; [done |].
  rewrite fmap_cons, concat_empty_cons, read_writerow, IH, filter_cons.
  destruct r; [by rewrite decide_False by (intros H; by apply H) |].
  by rewrite decide_True.
Qed.

(** The text of [to_csv] is read as the labels and then the rows. *)
Lemma read_to_csv_text (float_repr : float -> string) (d : DataFrame) :
  csv_records (to_csv_text float_repr d)
  = filter (fun r => r <> [])
      (labels d
       :: ((fun r : list (option cell) => csv_cell float_repr <$> r) <$> frame_rows d)).
Proof.
  rewrite <- read_written_rows. unfold to_csv_text.
  rewrite fmap_cons, concat_empty_cons. by rewrite <- list_fmap_compose.
Qed.

(** * The claims *)

(** ** C1: the derived column *)

(** C1.  In the table that [data_transformation] returns, every row
    holds under [total_charges] the sum of what it holds under
    [billing_amount], a float after the stripping and the coercion,
    and under [tax_amount].  The argument is a well-formed frame, as
    every frame of pandas is: its columns are as long as its index. *)
Theorem total_charges_is_sum (py_float : string -> option float) (w w' : World)
    (data out : ref) (d : DataFrame) :
  frames w !! data = Some d ->
  wf_frame d ->
  data_transformation py_float data w = (Ok out, w') ->
  exists dd, frames w' !! out = Some dd /\
    forall i, (i < nrows dd)%nat ->
      exists b t tot,
        cell_at dd "billing_amount" i = Some (CFloat b)
        /\ cell_at dd "tax_amount" i = Some t
        /\ cell_at dd "total_charges" i = Some tot
        /\ cell_add (CFloat b) t = Ok tot.
Proof.
  intros Hd Hwf Hrun.
  destruct (data_transformation_run py_float w data d Hd) as (d' & Hrun' & Hd').
  rewrite Hrun' in Hrun. clear Hrun'.
  destruct (transform_frame py_float d) as [dd|] eqn:Ht; [| done].
  injection Hrun as <- <-. rewrite (Hd' dd eq_refl). clear Hd' d'.
  exists dd. split; [apply lookup_insert_eq |].
  apply transform_frame_columns in Ht
    as (l & fl & tax & total & Hl & Hfl & Hadd & Hb & Ht & Ht0 & Htot & Hidx & _).
  pose proof (wf_drop_duplicates_column_len _ _ _ Hwf Hl) as Hlen_l.
  pose proof (wf_drop_duplicates_column_len _ _ _ Hwf Ht0) as Hlen_t.
  apply length_mapM in Hfl.
  unfold nrows in *. rewrite Hidx. unfold series_len in *; simpl in Hlen_l.
  rewrite length_fmap in Hlen_l.
  intros i Hi. unfold cell_at. rewrite Hb, Ht, Htot. simpl.
  destruct (lookup_lt_is_Some_2 fl i) as [b Hbi]; [lia |].
  destruct (lookup_lt_is_Some_2 (series_cells tax) i) as [t Hti]; [lia |].
  exists b, t.
  destruct (series_add_cells (SFloat64 fl) tax total i (CFloat b) t Hadd)
    as (tot & Htoti & Hsum); [simpl; by rewrite list_lookup_fmap, Hbi | done |].
  exists tot. by rewrite list_lookup_fmap, Hbi.
Qed.

Lemma total_charges_is_sum_witness :
  exists dd,
    frames (data_transformation RefFloat.py_float 0%nat (world_of input_data)).2 !! 1%nat
    = Some dd /\
    forall i, (i < nrows dd)%nat ->
      exists b t tot,
        cell_at dd "billing_amount" i = Some (CFloat b)
        /\ cell_at dd "tax_amount" i = Some t
        /\ cell_at dd "total_charges" i = Some tot
        /\ cell_add (CFloat b) t = Ok tot.
Proof.
  apply (total_charges_is_sum RefFloat.py_float (world_of input_data) _ 0%nat 1%nat
           input_data).
  - reflexivity.
  - apply (bool_decide_unpack (wf_frame input_data)). vm_compute. exact I.
  - vm_compute. reflexivity.
Defined.

Example input_data_transformed :
  (data_transformation RefFloat.py_float 0%nat (world_of input_data)).1 = Ok 1%nat
  /\ frames (data_transformation RefFloat.py_float 0%nat (world_of input_data)).2 !! 1%nat
     = Some (mkFrame [0; 1; 2; 3; 4]
               [("customer_id", SInt64 [1; 2; 3; 4; 5]);
                ("billing_amount", SFloat64 (F64.of_Z <$> [100; 200; 300; 400; 500]));
                ("tax_amount", SInt64 [10; 20; 30; 40; 50]);
                ("total_charges", SFloat64 (F64.of_Z <$> [110; 220; 330; 440; 550]))]).
Proof. split; vm_compute; reflexivity. Qed.

(** ** C2: a required column is missing *)

(** C2, as stated, fails: on a table that has rows and lacks
    [tax_amount], the conversion of [billing_amount] comes first, and
    its [ValueError] is what the caller gets, not a [KeyError]. *)
Lemma missing_tax_value_error :
  df_index missing_tax_data <> []
  /\ column missing_tax_data "tax_amount" = None
  /\ (data_transformation RefFloat.py_float 0%nat (world_of missing_tax_data)).1
     = Raise ValueError.
Proof. split; [discriminate | split; vm_compute; reflexivity]. Qed.

(** C2, amended.  On a well-formed table with rows that lacks
    [billing_amount] or [tax_amount], [data_transformation] returns no
    table.  The error is the [KeyError] of [billing_amount] when that
    column is missing, and the [KeyError] of [tax_amount] when only
    that one is missing and [billing_amount] holds strings that all
    convert.  When [tax_amount] is missing and the conversion of
    [billing_amount] fails, the error is that of the conversion:
    [ValueError] for a string that is no number, [AttributeError] for
    a column that holds no strings. *)
Theorem missing_column_raises (py_float : string -> option float) (w : World)
    (data : ref) (d : DataFrame) :
  frames w !! data = Some d ->
  wf_frame d ->
  df_index d <> [] ->
  column d "billing_amount" = None \/ column d "tax_amount" = None ->
  exists e,
    (data_transformation py_float data w).1 = Raise e
    /\ (column d "billing_amount" = None -> e = KeyError "billing_amount")
    /\ (forall l, column d "billing_amount" = Some (SObject l) ->
          Forall (fun o => is_Some (coerce py_float o)) l -> e = KeyError "tax_amount")
    /\ (forall l, column d "billing_amount" = Some (SObject l) ->
          Exists (fun o => coerce py_float o = None) l -> e = ValueError)
    /\ (forall s, column d "billing_amount" = Some s ->
          (forall l, s <> SObject l) -> e = AttributeError).
Proof.
  intros Hd Hwf _ Hmiss. rewrite (data_transformation_result py_float w data d Hd).
  destruct (column d "billing_amount") as [s|] eqn:Hb.
  - destruct Hmiss as [|Htax]; [done |].
    assert (Hnum : forall s, column d "billing_amount" = Some s ->
              (forall l, s <> SObject l) ->
              exists e,
                match transform_frame py_float d with
                | Ok _ => Ok (fresh (dom (frames w)))
                | Raise e => Raise e
                end = Raise e
                /\ (Some s = None -> e = KeyError "billing_amount")
                /\ (forall l, Some s = Some (SObject l) ->
                      Forall (fun o => is_Some (coerce py_float o)) l ->
                      e = KeyError "tax_amount")
                /\ (forall l, Some s = Some (SObject l) ->
                      Exists (fun o => coerce py_float o = None) l -> e = ValueError)
                /\ (forall s', Some s = Some s' ->
                      (forall l, s' <> SObject l) -> e = AttributeError)).
    { intros s0 Hb0 Hs. rewrite (transform_numeric_billing py_float d s0 Hb0 Hs).
      exists AttributeError. repeat split; try done.
      - intros l [= ->]. by destruct (Hs l).
      - intros l [= ->]. by destruct (Hs l). }
    destruct s as [l|l|l]; [by apply Hnum | by apply Hnum |]. clear Hnum.
    destruct (mapM (coerce py_float) l) as [fl|] eqn:Hfl.
    + assert (Hall : Forall (fun o => is_Some (coerce py_float o)) l).
      { apply (mapM_is_Some_1 (coerce py_float)). by rewrite Hfl. }
      destruct (transform_parsable py_float d l Hb Hall) as (l' & fl' & _ & _ & ->).
      rewrite add_total_columns, column_drop_duplicates, Htax. simpl.
      exists (KeyError "tax_amount"). repeat split; try done.
      * intros l0 [= <-] Hex%mapM_None. congruence.
      * intros s [= <-] Hs. by destruct (Hs l).
    + apply mapM_None in Hfl.
      rewrite (transform_unparsable py_float d l Hwf Hb Hfl).
      exists ValueError. repeat split; try done.
      * intros l0 [= <-] Hall. apply mapM_None in Hfl.
        apply (mapM_is_Some_2 (coerce py_float)) in Hall as [x Hx]. congruence.
      * intros s [= <-] Hs. by destruct (Hs l).
  - rewrite (transform_no_billing py_float d Hb).
    exists (KeyError "billing_amount"). repeat split; done.
Qed.

Lemma missing_column_raises_witness :
  exists e,
    (data_transformation RefFloat.py_float 0%nat (world_of missing_columns_data)).1
    = Raise e
    /\ (column missing_columns_data "billing_amount" = None ->
        e = KeyError "billing_amount")
    /\ (forall l, column missing_columns_data "billing_amount" = Some (SObject l) ->
          Forall (fun o => is_Some (coerce RefFloat.py_float o)) l ->
          e = KeyError "tax_amount")
    /\ (forall l, column missing_columns_data "billing_amount" = Some (SObject l) ->
          Exists (fun o => coerce RefFloat.py_float o = None) l -> e = ValueError)
    /\ (forall s, column missing_columns_data "billing_amount" = Some s ->
          (forall l, s <> SObject l) -> e = AttributeError).
Proof.
  apply (missing_column_raises RefFloat.py_float (world_of missing_columns_data) 0%nat
           missing_columns_data).
  - reflexivity.
  - apply (bool_decide_unpack (wf_frame missing_columns_data)). vm_compute. exact I.
  - discriminate.
  - left. reflexivity.
Defined.

(** ** C3: the empty table *)

(** C3.  The test expects the empty table back.  The code copies it
    in [drop_duplicates] and then looks up [billing_amount], which
    raises [KeyError]. *)
Theorem empty_table_raises (py_float : string -> option float) :
  data_transformation py_float 0%nat (world_of empty_data)
  = (Raise (KeyError "billing_amount"),
     with_frames (<[1%nat := empty_data]> (frames (world_of empty_data)))
                 (world_of empty_data)).
Proof. reflexivity. Qed.

(** ** C4: duplicates *)

(** C4, as stated, fails: the two rows of [respelled_data] differ, so
    [drop_duplicates] keeps both, and the coercion makes them equal. *)
Lemma respelled_rows_coincide :
  NoDup (frame_rows respelled_data)
  /\ (data_transformation RefFloat.py_float 0%nat (world_of respelled_data)).1 = Ok 1%nat
  /\ frame_rows
       <$> frames (data_transformation RefFloat.py_float 0%nat (world_of respelled_data)).2
           !! 1%nat
     = Some [ [Some (CInt 1); Some (CFloat (F64.of_Z 100)); Some (CInt 10);
               Some (CFloat (F64.of_Z 110))];
              [Some (CInt 1); Some (CFloat (F64.of_Z 100)); Some (CInt 10);
               Some (CFloat (F64.of_Z 110))] ].
Proof.
  split; [| split; vm_compute; reflexivity].
  apply (bool_decide_unpack (NoDup (frame_rows respelled_data))). vm_compute. exact I.
Qed.

(** C4, amended.  The rows of the table returned are the rows that
    [drop_duplicates] keeps, in their order and under their labels, and
    no two of these are equal across the columns of the input: rows
    are compared before [billing_amount] is coerced and
    [total_charges] is written.  The other columns are returned as
    they were kept. *)
Theorem kept_rows_distinct (py_float : string -> option float) (w w' : World)
    (data out : ref) (d : DataFrame) :
  frames w !! data = Some d ->
  data_transformation py_float data w = (Ok out, w') ->
  exists dd,
    frames w' !! out = Some dd
    /\ NoDup (frame_rows (drop_duplicates_frame d))
    /\ sublist (frame_rows (drop_duplicates_frame d)) (frame_rows d)
    /\ df_index dd = df_index (drop_duplicates_frame d)
    /\ forall name, name <> "billing_amount" -> name <> "total_charges" ->
         column dd name = column (drop_duplicates_frame d) name.
Proof.
  intros Hd Hrun.
  destruct (data_transformation_Ok py_float w w' data out d Hd Hrun)
    as (dd & Ht & _ & _ & Hout).
  exists dd. split; [done |].
  apply transform_frame_columns in Ht
    as (l & fl & tax & total & Hl & _ & _ & _ & _ & _ & _ & Hidx & Hrest).
  split; [| split; [apply drop_duplicates_sublist | by split]].
  apply drop_duplicates_NoDup. intros Hnil.
  rewrite column_drop_duplicates in Hl. unfold column in Hl. by rewrite Hnil in Hl.
Qed.

Lemma kept_rows_distinct_witness :
  exists dd,
    frames (data_transformation RefFloat.py_float 0%nat (world_of respelled_data)).2
      !! 1%nat = Some dd
    /\ NoDup (frame_rows (drop_duplicates_frame respelled_data))
    /\ sublist (frame_rows (drop_duplicates_frame respelled_data))
               (frame_rows respelled_data)
    /\ df_index dd = df_index (drop_duplicates_frame respelled_data)
    /\ forall name, name <> "billing_amount" -> name <> "total_charges" ->
         column dd name = column (drop_duplicates_frame respelled_data) name.
Proof.
  apply (kept_rows_distinct RefFloat.py_float (world_of respelled_data) _ 0%nat 1%nat
           respelled_data).
  - reflexivity.
  - vm_compute. reflexivity.
Defined.

(** ** C5: the coercion of the billing column *)

(** C5, as stated, fails twice.  The text ["1$00"] does not start
    with a currency symbol and is no number, and yet no error is
    raised: the dollar sign inside is removed and the value is
    [100.0].  And a table whose [billing_amount] holds the number
    [100] is not coerced: the error is the [AttributeError] of the
    [.str] accessor, which is no conversion error. *)
Lemma coercion_claim_fails :
  strip_leading_symbol "1$00" = "1$00"
  /\ RefFloat.py_float "1$00" = None
  /\ (data_transformation RefFloat.py_float 0%nat (world_of inner_dollar_data)).1
     = Ok 1%nat
  /\ df_index numeric_data <> []
  /\ (data_transformation RefFloat.py_float 0%nat (world_of numeric_data)).1
     = Raise AttributeError.
Proof.
  split; [reflexivity |]. split; [vm_compute; reflexivity |].
  split; [vm_compute; reflexivity |]. split; [discriminate | vm_compute; reflexivity].
Qed.

(** C5, amended.  On a well-formed table with rows and the two
    required columns, whose [billing_amount] holds strings:
    a [ValueError] is raised exactly when some value, once its dollar
    signs are removed, is no number for [float]; a table that is
    returned holds under [billing_amount] the floats of the values
    kept, dollar signs removed, and a missing value as NaN; when every
    value converts and [tax_amount] is numeric a table is returned;
    and a value that is a dollar sign followed by text without one is
    converted as that text. *)
Theorem billing_is_coerced (py_float : string -> option float) (w : World)
    (data : ref) (d : DataFrame) (l : list pyobj) (t : Series) :
  frames w !! data = Some d ->
  wf_frame d ->
  df_index d <> [] ->
  column d "billing_amount" = Some (SObject l) ->
  column d "tax_amount" = Some t ->
  ((data_transformation py_float data w).1 = Raise ValueError
   <-> Exists (fun o => forall x, ~ coerced_to py_float o x) l)
  /\ (forall out w', data_transformation py_float data w = (Ok out, w') ->
        exists dd l' fl,
          frames w' !! out = Some dd
          /\ dedup_series d (SObject l) = SObject l'
          /\ Forall2 (coerced_to py_float) l' fl
          /\ column dd "billing_amount" = Some (SFloat64 fl))
  /\ (Forall (fun o => exists x, coerced_to py_float o x) l ->
      (forall lt, t <> SObject lt) ->
      exists out, (data_transformation py_float data w).1 = Ok out)
  /\ (forall s, "$"%char ∉ list_ascii_of_string s ->
        forall x, coerced_to py_float (PyStr (String "$" s)) x <-> py_float s = Some x).
Proof.
  intros Hd Hwf _ Hb Htax.
  assert (Hnone : forall o, (forall x, ~ coerced_to py_float o x)
                            <-> coerce py_float o = None).
  { intros o. split.
    - intros Hno. destruct (coerce py_float o) as [x|] eqn:Hx; [| done].
      by apply coerce_coerced_to, Hno in Hx.
    - intros Hc x Hx%coerce_coerced_to. congruence. }
  assert (Hsome : forall o, (exists x, coerced_to py_float o x)
                            <-> is_Some (coerce py_float o)).
  { intros o. split; intros [x Hx]; exists x; by apply coerce_coerced_to. }
  split; [| split; [| split]].
  - rewrite (data_transformation_result py_float w data d Hd). split.
    + intros Hraise.
      destruct (mapM (coerce py_float) l) as [fl|] eqn:Hfl.
      * exfalso.
        assert (Hall : Forall (fun o => is_Some (coerce py_float o)) l).
        { apply (mapM_is_Some_1 (coerce py_float)). by rewrite Hfl. }
        destruct (transform_parsable py_float d l Hb Hall) as (l' & fl' & _ & _ & Heq).
        rewrite Heq, add_total_columns, column_drop_duplicates, Htax in Hraise.
        simpl in Hraise.
        destruct (series_add (SFloat64 fl') (dedup_series d t)) as [total|e] eqn:Hadd;
          [done |].
        apply series_add_raises in Hadd. congruence.
      * apply mapM_None in Hfl. eapply Exists_impl; [apply Hfl |].
        intros o Ho. by apply Hnone.
    + intros Hex.
      rewrite (transform_unparsable py_float d l Hwf Hb); [done |].
      eapply Exists_impl; [apply Hex |]. intros o Ho. by apply Hnone.
  - intros out w' Hrun.
    destruct (data_transformation_Ok py_float w w' data out d Hd Hrun)
      as (dd & Ht & _ & _ & Hout).
    apply transform_frame_columns in Ht
      as (l' & fl & tax & total & Hl' & Hfl & _ & Hbb & _).
    rewrite column_drop_duplicates, Hb in Hl'. injection Hl' as Hl'.
    exists dd, l', fl. repeat split; try done.
    apply mapM_Some in Hfl. eapply Forall2_impl; [apply Hfl |].
    intros o x. apply coerce_coerced_to.
  - intros Hall Ht.
    assert (Hall' : Forall (fun o => is_Some (coerce py_float o)) l).
    { eapply Forall_impl; [apply Hall |]. intros o Ho. by apply Hsome. }
    destruct (transform_parsable py_float d l Hb Hall') as (l' & fl' & _ & _ & Heq).
    rewrite (data_transformation_result py_float w data d Hd), Heq.
    rewrite add_total_columns, column_drop_duplicates, Htax. simpl.
    destruct (series_add_numeric fl' (dedup_series d t)) as [total ->];
      [by apply dedup_series_numeric | eauto].
  - intros s Hs x. unfold coerced_to.
    assert (Heq : remove_dollars (String "$" s) = s).
    { rewrite <- replace_char_remove_dollars. simpl.
      rewrite replace_char_remove_dollars. by apply remove_dollars_id. }
    by rewrite Heq.
Qed.

Lemma billing_is_coerced_witness :
  ((data_transformation RefFloat.py_float 0%nat (world_of input_data)).1 = Raise ValueError
   <-> Exists (fun o => forall x, ~ coerced_to RefFloat.py_float o x)
         [PyStr "$100"; PyStr "$200"; PyStr "$300"; PyStr "$400"; PyStr "$500"])
  /\ (forall out w',
        data_transformation RefFloat.py_float 0%nat (world_of input_data) = (Ok out, w') ->
        exists dd l' fl,
          frames w' !! out = Some dd
          /\ dedup_series input_data
               (SObject [PyStr "$100"; PyStr "$200"; PyStr "$300"; PyStr "$400";
                         PyStr "$500"])
             = SObject l'
          /\ Forall2 (coerced_to RefFloat.py_float) l' fl
          /\ column dd "billing_amount" = Some (SFloat64 fl))
  /\ (Forall (fun o => exists x, coerced_to RefFloat.py_float o x)
        [PyStr "$100"; PyStr "$200"; PyStr "$300"; PyStr "$400"; PyStr "$500"] ->
      (forall lt, SInt64 [10; 20; 30; 40; 50] <> SObject lt) ->
      exists out,
        (data_transformation RefFloat.py_float 0%nat (world_of input_data)).1 = Ok out)
  /\ (forall s, "$"%char ∉ list_ascii_of_string s ->
        forall x, coerced_to RefFloat.py_float (PyStr (String "$" s)) x
                  <-> RefFloat.py_float s = Some x).
Proof.
  apply (billing_is_coerced RefFloat.py_float (world_of input_data) 0%nat input_data).
  - reflexivity.
  - apply (bool_decide_unpack (wf_frame input_data)). vm_compute. exact I.
  - discriminate.
  - reflexivity.
  - reflexivity.
Defined.

(** ** C6: an empty file *)

(** C6.  The test expects an empty table for a file of zero bytes.
    [read_csv] finds no header in it and raises [EmptyDataError]; the
    parser is not reached and no table is made. *)
Theorem empty_file_raises (csv_parse : string -> result DataFrame)
    (fr : gmap nat DataFrame) (fl : gmap string string) (lk : gmap string exn)
    (file_path : string) :
  data_extraction csv_parse file_path (mkWorld fr (<[file_path := EmptyString]> fl) lk)
  = (Raise EmptyDataError, mkWorld fr (<[file_path := EmptyString]> fl) lk).
Proof.
  unfold data_extraction. rewrite bind_run. unfold read_csv. simpl.
  by rewrite lookup_insert_eq.
Qed.

(** ** C7: writing a table without rows *)

(** C7.  In a world where [data] is a table without rows and the
    path can be opened for writing, [data_loading] raises nothing, and
    the file it leaves at the path holds the header row and nothing
    else: read back, the text has one record, the column labels in
    their order, and no record at all when the table has no column.
    For the columns of the table of [test_data_loading] the text is
    the four labels with commas between them and a line feed at the
    end; for [pd.DataFrame()] it is a line feed. *)
Theorem empty_table_written (float_repr : float -> string)
    (fr : gmap nat DataFrame) (fl : gmap string string) (lk : gmap string exn)
    (data : ref) (output_file : string) (cols : list (string * Series)) :
  exists text,
    data_loading float_repr data output_file
      (mkWorld (<[data := mkFrame [] cols]> fr) fl (delete output_file lk))
    = (Ok tt,
       mkWorld (<[data := mkFrame [] cols]> fr)
               (<[output_file := text]> fl)
               (delete output_file lk))
    /\ csv_records text = match cols with [] => [] | _ :: _ => [fst <$> cols] end
    /\ (cols = df_columns loaded_columns ->
        text = "customer_id,billing_amount,tax_amount,total_charges"
               ++ String (ascii_of_nat 10) EmptyString)
    /\ (cols = df_columns empty_data -> text = String (ascii_of_nat 10) EmptyString).
Proof.
  exists (to_csv_text float_repr (mkFrame [] cols)). split; [| split; [| split]].
  - unfold data_loading, to_csv. rewrite bind_run. unfold load. simpl.
    rewrite lookup_insert_eq. unfold write_file. simpl. by rewrite lookup_delete_eq.
  - rewrite read_to_csv_text. unfold frame_rows, nrows, labels.
    cbn [df_index df_columns length seq]. rewrite filter_cons.
    destruct cols as [|c cols]; [by rewrite decide_False by (intros H; by apply H) |].
    by rewrite decide_True.
  - by intros ->.
  - by intros ->.
Qed.

(** ** C8: every dollar sign goes *)

(** C8.  The billing column returned holds, for each value that
    [drop_duplicates] kept, the float of the text with all its dollar
    signs removed, wherever they stood; so ["1$00"] becomes [100.0] and
    no error is raised. *)
Theorem dollars_removed_everywhere (py_float : string -> option float) :
  (forall (w w' : World) (data out : ref) (d : DataFrame),
      frames w !! data = Some d ->
      data_transformation py_float data w = (Ok out, w') ->
      exists dd l fl,
        frames w' !! out = Some dd
        /\ column (drop_duplicates_frame d) "billing_amount" = Some (SObject l)
        /\ column dd "billing_amount" = Some (SFloat64 fl)
        /\ Forall2 (coerced_to py_float) l fl)
  /\ (data_transformation RefFloat.py_float 0%nat (world_of inner_dollar_data)).1
     = Ok 1%nat
  /\ frames (data_transformation RefFloat.py_float 0%nat (world_of inner_dollar_data)).2
       !! 1%nat
     = Some (mkFrame [0]
               [("billing_amount", SFloat64 [F64.of_Z 100]);
                ("tax_amount", SInt64 [10]);
                ("total_charges", SFloat64 [F64.of_Z 110])]).
Proof.
  split; [| split; vm_compute; reflexivity].
  intros w w' data out d Hd Hrun.
  destruct (data_transformation_Ok py_float w w' data out d Hd Hrun)
    as (dd & Ht & _ & _ & Hout).
  apply transform_frame_columns in Ht
    as (l & fl & tax & total & Hl & Hfl & _ & Hb & _).
  exists dd, l, fl. repeat split; try done.
  apply mapM_Some in Hfl. eapply Forall2_impl; [apply Hfl |].
  intros o x. apply coerce_coerced_to.
Qed.

Lemma dollars_removed_everywhere_witness :
  exists dd l fl,
    frames (data_transformation RefFloat.py_float 0%nat (world_of inner_dollar_data)).2
      !! 1%nat = Some dd
    /\ column (drop_duplicates_frame inner_dollar_data) "billing_amount"
       = Some (SObject l)
    /\ column dd "billing_amount" = Some (SFloat64 fl)
    /\ Forall2 (coerced_to RefFloat.py_float) l fl.
Proof.
  apply (proj1 (dollars_removed_everywhere RefFloat.py_float)
           (world_of inner_dollar_data) _ 0%nat 1%nat inner_dollar_data).
  - reflexivity.
  - vm_compute. reflexivity.
Defined.

(** ** C9: the argument is left alone *)

(** C9.  Whatever the outcome, the table passed to
    [data_transformation] is after the call what it was before, and so
    is every other table and every file: the function writes to the
    object that [drop_duplicates] allocates, and to nothing else. *)
Theorem argument_unchanged (py_float : string -> option float) (w : World)
    (data : ref) :
  frames (data_transformation py_float data w).2 !! data = frames w !! data
  /\ frames w ⊆ frames (data_transformation py_float data w).2
  /\ files (data_transformation py_float data w).2 = files w
  /\ locked (data_transformation py_float data w).2 = locked w.
Proof.
  destruct (frames w !! data) as [d|] eqn:Hd.
  - destruct (data_transformation_run py_float w data d Hd) as (d' & -> & _).
    simpl. assert (Hfresh : frames w !! fresh (dom (frames w)) = None).
    { apply not_elem_of_dom, is_fresh. }
    repeat split; try done.
    + rewrite lookup_insert_ne; [done |]. intros Heq.
      apply (is_fresh (dom (frames w))). rewrite Heq. apply elem_of_dom. by exists d.
    + by apply insert_subseteq.
  - rewrite (data_transformation_dangling py_float w data Hd). simpl.
    repeat split; done.
Qed.

(** ** C10: a numeric billing column *)

(** C10.  When [billing_amount] is a numeric column the [.str]
    accessor raises [AttributeError] and no table is returned; the
    table that [data_transformation] returns has a float
    [billing_amount], so a second application to it raises. *)
Theorem numeric_billing_rejected (py_float : string -> option float) :
  (forall (w : World) (data : ref) (d : DataFrame) (s : Series),
      frames w !! data = Some d ->
      column d "billing_amount" = Some s ->
      (forall l, s <> SObject l) ->
      (data_transformation py_float data w).1 = Raise AttributeError)
  /\ (forall (w w' : World) (data out : ref),
        data_transformation py_float data w = (Ok out, w') ->
        (data_transformation py_float out w').1 = Raise AttributeError).
Proof.
  split.
  - intros w data d s Hd Hb Hs.
    rewrite (data_transformation_result py_float w data d Hd).
    by rewrite (transform_numeric_billing py_float d s Hb Hs).
  - intros w w' data out Hrun.
    destruct (frames w !! data) as [d|] eqn:Hd;
      [| by rewrite (data_transformation_dangling py_float w data Hd) in Hrun].
    destruct (data_transformation_Ok py_float w w' data out d Hd Hrun)
      as (dd & Ht & _ & _ & Hout).
    apply transform_frame_columns in Ht
      as (l & fl & tax & total & _ & _ & _ & Hb & _).
    rewrite (data_transformation_result py_float w' out dd Hout).
    by rewrite (transform_numeric_billing py_float dd (SFloat64 fl) Hb).
Qed.

Lemma numeric_billing_rejected_witness :
  (data_transformation RefFloat.py_float 0%nat (world_of numeric_data)).1
  = Raise AttributeError
  /\ (data_transformation RefFloat.py_float 1%nat
        (data_transformation RefFloat.py_float 0%nat (world_of input_data)).2).1
     = Raise AttributeError.
Proof.
  split.
  - apply (proj1 (numeric_billing_rejected RefFloat.py_float)
             (world_of numeric_data) 0%nat numeric_data (SInt64 [100; 200]));
      [reflexivity | reflexivity | discriminate].
  - apply (proj2 (numeric_billing_rejected RefFloat.py_float)
             (world_of input_data) _ 0%nat 1%nat).
    vm_compute. reflexivity.
Defined.


(** * Further properties of the pipeline *)

(** ** Masks that keep everything *)

Lemma keep_rows_all {A : Type} (mask : list bool) (l : list A) :
  Forall (fun b => b = true) mask ->
  (length l <= length mask)%nat ->
  keep_rows mask l = l.
Proof.
  revert l; induction mask as [|b mask IH]; intros [|x l] Hall Hlen; simpl in *;
    try done; try lia.
  apply Forall_cons in Hall as [-> Hall]. f_equal. apply IH; [done | lia].
Qed.

Lemma duplicated_from_NoDup (seen keys : list (list (option cell))) :
  NoDup keys ->
  (forall k, k ∈ keys -> k ∉ seen) ->
  Forall (fun b => b = true) (negb <$> duplicated_from seen keys).
Proof.
  revert seen; induction keys as [|k keys IH]; intros seen Hnd Hseen; simpl.
  - constructor.
  - apply NoDup_cons in Hnd as [Hk Hnd]. constructor.
    + rewrite bool_decide_eq_false_2; [done |]. apply Hseen. by left.
    + apply IH; [done |]. intros k' Hk' [->|Hin]%elem_of_cons; [done |].
      apply (Hseen k'); [by right | done].
Qed.

Lemma series_mask_all (mask : list bool) (s : Series) :
  Forall (fun b => b = true) mask ->
  (series_len s <= length mask)%nat ->
  series_mask mask s = s.
Proof.
  intros Hall Hlen. unfold series_len in Hlen.
  destruct s as [l|l|l]; simpl in *; rewrite length_fmap in Hlen;
    by rewrite keep_rows_all.
Qed.

Lemma frame_mask_all (mask : list bool) (d : DataFrame) :
  Forall (fun c : string * Series => series_len c.2 = nrows d) (df_columns d) ->
  Forall (fun b => b = true) mask ->
  length mask = nrows d ->
  frame_mask mask d = d.
Proof.
  intros Hlen Hall Hmask. destruct d as [idx cols]. unfold frame_mask, nrows in *.
  simpl in *. f_equal.
  - apply keep_rows_all; [done | lia].
  - induction cols as [|[n s] cols IH]; [done |].
    apply Forall_cons in Hlen as [Hs Hlen]. simpl in *.
    rewrite series_mask_all by (done || lia). f_equal. by apply IH.
Qed.

(** A well-formed frame without two equal rows is its own
    deduplication. *)
Lemma drop_duplicates_frame_id (d : DataFrame) :
  wf_frame d ->
  NoDup (row_key <$> frame_rows d) ->
  drop_duplicates_frame d = d.
Proof.
  intros [_ Hlen] Hnd. unfold drop_duplicates_frame.
  destruct (frame_empty d); [done |].
  apply frame_mask_all; [done | | by rewrite length_fmap, duplicated_length].
  apply duplicated_from_NoDup; [done |]. intros k _. apply not_elem_of_nil.
Qed.

(** ** Labels and well-formedness *)

Lemma find_column_label (cols : list (string * Series)) (name : string) (s : Series) :
  find_column cols name = Some s -> name ∈ cols.*1.
Proof.
  intros Hs%find_column_elem_of. apply list_elem_of_fmap. by exists (name, s).
Qed.

Lemma set_column_labels (cols : list (string * Series)) (name : string) (s : Series) :
  (set_column cols name s).*1
  = if bool_decide (name ∈ cols.*1) then cols.*1 else (cols.*1 ++ [name])%list.
Proof.
  unfold set_column. case_bool_decide.
  - rewrite <- list_fmap_compose. apply list_fmap_ext. intros _ [n c] _. simpl.
    by destruct (decide (n = name)).
  - by rewrite fmap_app.
Qed.

Lemma set_frame_column_wf (d : DataFrame) (name : string) (s : Series) :
  wf_frame d -> series_len s = nrows d -> wf_frame (set_frame_column d name s).
Proof.
  intros [Hnd Hlen] Hs. unfold wf_frame, labels, set_frame_column, nrows in *.
  simpl. split.
  - rewrite set_column_labels. case_bool_decide as Hin; [done |].
    apply NoDup_app. split; [done |]. split; [| apply NoDup_singleton].
    intros x Hx ->%list_elem_of_singleton. done.
  - unfold set_column. case_bool_decide.
    + apply Forall_fmap. eapply Forall_impl; [apply Hlen |].
      intros [n c] Hc. simpl in *. by destruct (decide (n = name)).
    + apply Forall_app. split; [done |]. by constructor.
Qed.

Lemma drop_duplicates_frame_wf (d : DataFrame) :
  wf_frame d -> wf_frame (drop_duplicates_frame d).
Proof.
  intros Hwf. split.
  - rewrite labels_drop_duplicates. apply Hwf.
  - apply Forall_forall. intros [n c] Hin.
    destruct Hwf as [_ Hlen]. rewrite Forall_forall in Hlen.
    unfold drop_duplicates_frame in *. destruct (frame_empty d); [by apply Hlen |].
    simpl in Hin. apply list_elem_of_fmap in Hin as ([n' c'] & [= -> ->] & Hin).
    specialize (Hlen _ Hin). simpl in *.
    unfold series_len, nrows in *. rewrite series_cells_mask. simpl.
    by apply keep_rows_length.
Qed.

Lemma drop_duplicates_index_sublist (d : DataFrame) :
  sublist (df_index (drop_duplicates_frame d)) (df_index d).
Proof.
  unfold drop_duplicates_frame. destruct (frame_empty d); [done |].
  apply keep_rows_sublist.
Qed.

Lemma transform_frame_labels (py_float : string -> option float) (d dd : DataFrame) :
  transform_frame py_float d = Ok dd ->
  labels dd
  = if bool_decide ("total_charges" ∈ labels d) then labels d
    else (labels d ++ ["total_charges"])%list.
Proof.
  intros (l & fl & tax & total & Hl & _ & _ & _ & ->)%transform_frame_Ok.
  unfold labels, set_frame_column; simpl.
  assert (Hb : (set_column (df_columns (drop_duplicates_frame d)) "billing_amount"
                  (SFloat64 fl)).*1 = (df_columns d).*1).
  { rewrite set_column_labels, bool_decide_eq_true_2 by by eapply find_column_label.
    apply labels_drop_duplicates. }
  by rewrite set_column_labels, Hb.
Qed.

Lemma transform_frame_wf (py_float : string -> option float) (d dd : DataFrame) :
  wf_frame d -> transform_frame py_float d = Ok dd -> wf_frame dd.
Proof.
  intros Hwf (l & fl & tax & total & Hl & Hfl & Htax & Hadd & ->)%transform_frame_Ok.
  pose proof (wf_drop_duplicates_column_len _ _ _ Hwf Hl) as Hlen_l.
  pose proof (wf_drop_duplicates_column_len _ _ _ Hwf Htax) as Hlen_t.
  apply length_mapM in Hfl. apply series_add_length in Hadd.
  unfold series_len in *; simpl in *. rewrite length_fmap in *.
  apply set_frame_column_wf; [apply set_frame_column_wf |].
  - by apply drop_duplicates_frame_wf.
  - unfold series_len; simpl. rewrite length_fmap. congruence.
  - unfold series_len, set_frame_column, nrows in *; simpl.
    rewrite length_fmap in Hadd. lia.
Qed.

(** ** The shape of the table returned *)

(** X2.  The table returned has the columns of the argument in their
    order; [total_charges] is added as the last column, unless the
    argument has a column of that name already, which keeps its place
    and is overwritten. *)
Theorem returned_columns (py_float : string -> option float)
    (w w' : World) (data out : ref) (d : DataFrame) :
  frames w !! data = Some d ->
  data_transformation py_float data w = (Ok out, w') ->
  exists dd,
    frames w' !! out = Some dd
    /\ labels dd
       = if bool_decide ("total_charges" ∈ labels d) then labels d
         else (labels d ++ ["total_charges"])%list.
Proof.
  intros Hd Hrun.
  destruct (data_transformation_Ok py_float w w' data out d Hd Hrun)
    as (dd & Ht & _ & _ & Hout).
  exists dd. split; [done |]. by apply (transform_frame_labels py_float).
Qed.

Lemma returned_columns_witness :
  exists dd,
    frames (data_transformation RefFloat.py_float 0%nat (world_of input_data)).2
      !! 1%nat = Some dd
    /\ labels dd
       = if bool_decide ("total_charges" ∈ labels input_data) then labels input_data
         else (labels input_data ++ ["total_charges"])%list.
Proof.
  apply (returned_columns RefFloat.py_float (world_of input_data) _ 0%nat 1%nat
           input_data).
  - reflexivity.
  - vm_compute. reflexivity.
Defined.

(** X3.  On a well-formed table in which no two rows are equal,
    nothing is dropped: the table returned has the row labels of the
    argument and, apart from [billing_amount] and [total_charges], its
    columns as they are. *)
Theorem distinct_rows_all_kept (py_float : string -> option float)
    (w w' : World) (data out : ref) (d : DataFrame) :
  frames w !! data = Some d ->
  wf_frame d ->
  NoDup (row_key <$> frame_rows d) ->
  data_transformation py_float data w = (Ok out, w') ->
  exists dd,
    frames w' !! out = Some dd
    /\ df_index dd = df_index d
    /\ forall name, name <> "billing_amount" -> name <> "total_charges" ->
         column dd name = column d name.
Proof.
  intros Hd Hwf Hnd Hrun.
  destruct (data_transformation_Ok py_float w w' data out d Hd Hrun)
    as (dd & Ht & _ & _ & Hout).
  exists dd. split; [done |].
  apply transform_frame_columns in Ht
    as (l & fl & tax & total & _ & _ & _ & _ & _ & _ & _ & Hidx & Hrest).
  rewrite (drop_duplicates_frame_id d Hwf Hnd) in Hidx, Hrest. by split.
Qed.

Lemma distinct_rows_all_kept_witness :
  exists dd,
    frames (data_transformation RefFloat.py_float 0%nat (world_of input_data)).2
      !! 1%nat = Some dd
    /\ df_index dd = df_index input_data
    /\ forall name, name <> "billing_amount" -> name <> "total_charges" ->
         column dd name = column input_data name.
Proof.
  apply (distinct_rows_all_kept RefFloat.py_float (world_of input_data) _ 0%nat 1%nat
           input_data).
  - reflexivity.
  - apply (bool_decide_unpack (wf_frame input_data)). vm_compute. exact I.
  - apply (bool_decide_unpack (NoDup (row_key <$> frame_rows input_data))).
    vm_compute. exact I.
  - vm_compute. reflexivity.
Defined.

(** X4.  The table returned for a well-formed table is well formed:
    its labels are distinct and each of its columns, the two written
    ones included, has one value per row. *)
Theorem returned_table_well_formed (py_float : string -> option float)
    (w w' : World) (data out : ref) (d : DataFrame) :
  frames w !! data = Some d ->
  wf_frame d ->
  data_transformation py_float data w = (Ok out, w') ->
  exists dd, frames w' !! out = Some dd /\ wf_frame dd.
Proof.
  intros Hd Hwf Hrun.
  destruct (data_transformation_Ok py_float w w' data out d Hd Hrun)
    as (dd & Ht & _ & _ & Hout).
  exists dd. split; [done |]. by apply (transform_frame_wf py_float d).
Qed.

Lemma returned_table_well_formed_witness :
  exists dd,
    frames (data_transformation RefFloat.py_float 0%nat (world_of input_data)).2
      !! 1%nat = Some dd
    /\ wf_frame dd.
Proof.
  apply (returned_table_well_formed RefFloat.py_float (world_of input_data) _ 0%nat
           1%nat input_data).
  - reflexivity.
  - apply (bool_decide_unpack (wf_frame input_data)). vm_compute. exact I.
  - vm_compute. reflexivity.
Defined.

(** ** No row is lost *)

(** Every row of the frame has, among the rows kept, one that agrees
    with it, as [duplicated] compares values, on every column. *)
Lemma drop_duplicates_row_cover (d : DataFrame) (i : nat) :
  (i < nrows d)%nat ->
  exists j, (j < nrows (drop_duplicates_frame d))%nat /\
    forall name s, column d name = Some s ->
      cell_key <$> series_cells (dedup_series d s) !! j
      = cell_key <$> series_cells s !! i.
Proof.
  intros Hi. destruct (frame_empty d) eqn:He.
  - exists i. unfold drop_duplicates_frame, dedup_series. by rewrite He.
  - assert (Hrow : frame_row d i ∈ frame_rows d).
    { unfold frame_rows. apply list_elem_of_fmap. exists i. split; [done |].
      apply elem_of_seq. lia. }
    destruct (drop_duplicates_cover d _ Hrow) as (r' & Hr' & Hkey).
    unfold frame_rows in Hr'. apply list_elem_of_fmap in Hr' as (j & -> & Hj).
    apply elem_of_seq in Hj. exists j. split; [lia |].
    intros name s Hs.
    apply find_column_elem_of, list_elem_of_lookup in Hs as [p Hp].
    assert (Hpos : row_key (frame_row (drop_duplicates_frame d) j) !! p
                   = row_key (frame_row d i) !! p) by by rewrite Hkey.
    unfold row_key, frame_row, drop_duplicates_frame, dedup_series in *.
    rewrite He in *. simpl in Hpos. rewrite !list_lookup_fmap, Hp in Hpos.
    simpl in Hpos. by injection Hpos.
Qed.

(** X5.  No row of the argument is lost but to an equal one: for
    each of its rows the table returned has a row that agrees with it,
    as [drop_duplicates] compares values, on every column other than
    [billing_amount] and [total_charges], and that holds under
    [billing_amount] the float of the row's billing text. *)
Theorem every_row_survives (py_float : string -> option float)
    (w w' : World) (data out : ref) (d : DataFrame) (i : nat) :
  frames w !! data = Some d ->
  (i < nrows d)%nat ->
  data_transformation py_float data w = (Ok out, w') ->
  exists dd j,
    frames w' !! out = Some dd
    /\ (j < nrows dd)%nat
    /\ (forall name, name <> "billing_amount" -> name <> "total_charges" ->
          cell_key <$> cell_at dd name j = cell_key <$> cell_at d name i)
    /\ (forall o, cell_at d "billing_amount" i = Some (CObj o) ->
          exists x, coerced_to py_float o x
                    /\ cell_at dd "billing_amount" j = Some (CFloat x)).
Proof.
  intros Hd Hi Hrun.
  destruct (data_transformation_Ok py_float w w' data out d Hd Hrun)
    as (dd & Ht & _ & _ & Hout).
  apply transform_frame_columns in Ht
    as (l & fl & tax & total & Hl & Hfl & _ & Hb & _ & _ & _ & Hidx & Hrest).
  destruct (drop_duplicates_row_cover d i Hi) as (j & Hj & Hcover).
  exists dd, j. split; [done |]. unfold nrows in *. rewrite Hidx.
  split; [done |]. split.
  - intros name Hnb Hnt. unfold cell_at.
    rewrite (Hrest name Hnb Hnt), column_drop_duplicates.
    destruct (column d name) as [s|] eqn:Hs; [| done]. simpl.
    by apply (Hcover name).
  - intros o Ho. unfold cell_at in *. rewrite Hb. simpl.
    rewrite column_drop_duplicates in Hl.
    destruct (column d "billing_amount") as [s|] eqn:Hs; [| done].
    injection Hl as Hl. simpl in Ho.
    specialize (Hcover _ _ Hs). rewrite Hl, Ho in Hcover. simpl in Hcover.
    rewrite list_lookup_fmap in Hcover.
    destruct (l !! j) as [o'|] eqn:Hj'; [| done]. simpl in Hcover.
    injection Hcover as ->.
    apply mapM_Some in Hfl.
    destruct (Forall2_lookup_l _ _ _ _ _ Hfl Hj') as (x & Hx & Hc).
    exists x. split; [by apply coerce_coerced_to |].
    by rewrite list_lookup_fmap, Hx.
Qed.

Lemma every_row_survives_witness :
  exists dd j,
    frames (data_transformation RefFloat.py_float 0%nat (world_of input_data)).2
      !! 1%nat = Some dd
    /\ (j < nrows dd)%nat
    /\ (forall name, name <> "billing_amount" -> name <> "total_charges" ->
          cell_key <$> cell_at dd name j = cell_key <$> cell_at input_data name 2)
    /\ (forall o, cell_at input_data "billing_amount" 2 = Some (CObj o) ->
          exists x, coerced_to RefFloat.py_float o x
                    /\ cell_at dd "billing_amount" j = Some (CFloat x)).
Proof.
  apply (every_row_survives RefFloat.py_float (world_of input_data) _ 0%nat 1%nat
           input_data 2).
  - reflexivity.
  - vm_compute. lia.
  - vm_compute. reflexivity.
Defined.

(** ** The object returned *)

Lemma fresh_ref_ne (f : gmap nat DataFrame) (r : nat) (d : DataFrame) :
  f !! r = Some d -> fresh (dom f) <> r.
Proof.
  intros Hr Heq. apply (is_fresh (dom f)). rewrite Heq. apply elem_of_dom. by exists d.
Qed.

(** X6.  The table returned is a new object: its reference was not
    in use before the call and differs from the argument, and the call
    leaves the store as it was but for this one object. *)
Theorem returned_table_is_new (py_float : string -> option float)
    (w w' : World) (data out : ref) (d : DataFrame) :
  frames w !! data = Some d ->
  data_transformation py_float data w = (Ok out, w') ->
  frames w !! out = None
  /\ out <> data
  /\ exists dd, frames w' = <[out := dd]> (frames w).
Proof.
  intros Hd Hrun.
  destruct (data_transformation_Ok py_float w w' data out d Hd Hrun)
    as (dd & _ & -> & -> & _).
  assert (Hfresh : frames w !! fresh (dom (frames w)) = None).
  { apply not_elem_of_dom, is_fresh. }
  split; [done |]. split; [| by exists dd].
  intros Heq. subst data.
  pose proof (eq_trans (eq_sym Hfresh) Hd) as Hc. discriminate Hc.
Qed.

Lemma returned_table_is_new_witness :
  frames (world_of input_data) !! 1%nat = None
  /\ 1%nat <> 0%nat
  /\ exists dd,
       frames (data_transformation RefFloat.py_float 0%nat (world_of input_data)).2
       = <[1%nat := dd]> (frames (world_of input_data)).
Proof.
  apply (returned_table_is_new RefFloat.py_float (world_of input_data) _ 0%nat 1%nat
           input_data).
  - reflexivity.
  - vm_compute. reflexivity.
Defined.

(** X7.  A call can be repeated on the same argument, as
    [test_data_transformation] does: the second call returns, in
    another new object, a table equal to the one the first call
    returned. *)
Theorem transformation_repeatable (py_float : string -> option float)
    (w w1 : World) (data out1 : ref) :
  data_transformation py_float data w = (Ok out1, w1) ->
  exists out2 w2,
    data_transformation py_float data w1 = (Ok out2, w2)
    /\ out2 <> out1
    /\ frames w2 !! out2 = frames w1 !! out1
    /\ frames w2 !! out1 = frames w1 !! out1.
Proof.
  intros Hrun.
  destruct (frames w !! data) as [d|] eqn:Hd;
    [| by rewrite (data_transformation_dangling py_float w data Hd) in Hrun].
  destruct (data_transformation_Ok py_float w w1 data out1 d Hd Hrun)
    as (dd & Ht & Hout & Hw1 & Hdd).
  assert (Hne : out1 <> data).
  { rewrite Hout. exact (fresh_ref_ne _ _ _ Hd). }
  assert (Hd1 : frames w1 !! data = Some d).
  { rewrite Hw1. simpl. by rewrite lookup_insert_ne. }
  destruct (data_transformation_run py_float w1 data d Hd1) as (d' & Hrun2 & Hd').
  rewrite Ht in Hrun2. rewrite (Hd' dd Ht) in Hrun2. clear Hd' d'.
  set (out2 := fresh (dom (frames w1))) in *.
  assert (Hne2 : out2 <> out1) by exact (fresh_ref_ne _ _ _ Hdd).
  eexists out2, _. split; [exact Hrun2 |]. split; [done |]. simpl.
  rewrite lookup_insert_eq, lookup_insert_ne by done. by rewrite Hdd.
Qed.

Lemma transformation_repeatable_witness :
  exists out2 w2,
    data_transformation RefFloat.py_float 0%nat
      (data_transformation RefFloat.py_float 0%nat (world_of input_data)).2
    = (Ok out2, w2)
    /\ out2 <> 1%nat
    /\ frames w2 !! out2
       = frames (data_transformation RefFloat.py_float 0%nat (world_of input_data)).2
           !! 1%nat
    /\ frames w2 !! 1%nat
       = frames (data_transformation RefFloat.py_float 0%nat (world_of input_data)).2
           !! 1%nat.
Proof.
  apply (transformation_repeatable RefFloat.py_float (world_of input_data) _ 0%nat
           1%nat).
  vm_compute. reflexivity.
Defined.

(** ** Missing values *)

Lemma float_add_nan_l (y : float) : F64.add F64.nan y = F64.nan.
Proof. by destruct y. Qed.

Lemma float_add_nan_r (x : float) : F64.add x F64.nan = F64.nan.
Proof. by destruct x. Qed.

Lemma is_nan_eq (x : float) : F64.is_nan x = true -> x = F64.nan.
Proof. by destruct x. Qed.

(** A sum with a missing operand is missing. *)
Lemma cell_add_isna (a b c : cell) :
  cell_add a b = Ok c ->
  cell_isna a || cell_isna b = true ->
  cell_isna c = true.
Proof.
  intros Hadd Hna.
  destruct a as [x|x|[s|]], b as [y|y|[t|]]; simpl in *; try discriminate;
    try (injection Hadd as <-; reflexivity).
  all: try (destruct (F64.is_nan _); [injection Hadd as <-; reflexivity | discriminate]).
  - apply is_nan_eq in Hna as ->. injection Hadd as <-.
    by rewrite ?float_add_nan_l, ?float_add_nan_r.
  - rewrite orb_false_r in Hna. apply is_nan_eq in Hna as ->. injection Hadd as <-.
    by rewrite ?float_add_nan_l, ?float_add_nan_r.
  - injection Hadd as <-.
    apply orb_true_iff in Hna as [->%is_nan_eq | ->%is_nan_eq].
    + by rewrite ?float_add_nan_l, ?float_add_nan_r.
    + by rewrite ?float_add_nan_l, ?float_add_nan_r.
  - rewrite orb_true_r in Hadd. by injection Hadd as <-.
Qed.

(** The value under [total_charges] in a row of the table returned. *)
Lemma transform_frame_total_cell (py_float : string -> option float)
    (d dd : DataFrame) (i : nat) (b t : cell) :
  transform_frame py_float d = Ok dd ->
  cell_at dd "billing_amount" i = Some b ->
  cell_at dd "tax_amount" i = Some t ->
  exists tot, cell_at dd "total_charges" i = Some tot /\ cell_add b t = Ok tot.
Proof.
  intros (l & fl & tax & total & _ & _ & Hadd & Hb & Ht & _ & Htot & _)%transform_frame_columns.
  unfold cell_at. rewrite Hb, Ht, Htot. simpl. intros Hbi Hti.
  by apply (series_add_cells (SFloat64 fl) tax total).
Qed.

(** X8.  A missing value is not counted as zero: in the table
    returned, a row whose billing amount or tax amount is missing has
    a missing value under [total_charges]. *)
Theorem missing_amount_missing_total (py_float : string -> option float)
    (w w' : World) (data out : ref) (d : DataFrame) :
  frames w !! data = Some d ->
  data_transformation py_float data w = (Ok out, w') ->
  exists dd,
    frames w' !! out = Some dd
    /\ forall i b t,
         cell_at dd "billing_amount" i = Some b ->
         cell_at dd "tax_amount" i = Some t ->
         cell_isna b || cell_isna t = true ->
         exists tot, cell_at dd "total_charges" i = Some tot /\ cell_isna tot = true.
Proof.
  intros Hd Hrun.
  destruct (data_transformation_Ok py_float w w' data out d Hd Hrun)
    as (dd & Ht & _ & _ & Hout).
  exists dd. split; [done |]. intros i b t Hb Htax Hna.
  destruct (transform_frame_total_cell py_float d dd i b t Ht Hb Htax) as (tot & Htot & Hadd).
  exists tot. split; [done |]. by apply (cell_add_isna b t).
Qed.

Lemma missing_amount_missing_total_witness :
  exists dd,
    frames (data_transformation RefFloat.py_float 0%nat (world_of incomplete_data)).2
      !! 1%nat = Some dd
    /\ forall i b t,
         cell_at dd "billing_amount" i = Some b ->
         cell_at dd "tax_amount" i = Some t ->
         cell_isna b || cell_isna t = true ->
         exists tot, cell_at dd "total_charges" i = Some tot /\ cell_isna tot = true.
Proof.
  apply (missing_amount_missing_total RefFloat.py_float (world_of incomplete_data) _
           0%nat 1%nat incomplete_data).
  - reflexivity.
  - vm_compute. reflexivity.
Defined.

(** ** How many rows are returned *)

(** X9.  The table returned has as many rows as the argument has
    distinct rows, where rows are distinct as [drop_duplicates]
    compares them. *)
Theorem returned_row_count (py_float : string -> option float)
    (w w' : World) (data out : ref) (d : DataFrame) :
  frames w !! data = Some d ->
  data_transformation py_float data w = (Ok out, w') ->
  exists dd,
    frames w' !! out = Some dd
    /\ nrows dd = length (remove_dups (row_key <$> frame_rows d)).
Proof.
  intros Hd Hrun.
  destruct (data_transformation_Ok py_float w w' data out d Hd Hrun)
    as (dd & Ht & _ & _ & Hout).
  exists dd. split; [done |].
  apply transform_frame_columns in Ht
    as (l & fl & tax & total & Hl & _ & _ & _ & _ & _ & _ & Hidx & _).
  assert (Hrows : forall x : DataFrame, nrows x = length (frame_rows x)).
  { intros x. unfold frame_rows. by rewrite length_fmap, length_seq. }
  unfold nrows at 1. rewrite Hidx. fold (nrows (drop_duplicates_frame d)).
  destruct (frame_empty d) eqn:He.
  - unfold drop_duplicates_frame. rewrite He.
    unfold frame_empty in He.
    apply orb_true_iff in He as [Hi%bool_decide_eq_true | Hc%bool_decide_eq_true].
    + unfold frame_rows, nrows. by rewrite Hi.
    + rewrite column_drop_duplicates in Hl. unfold column in Hl. by rewrite Hc in Hl.
  - rewrite Hrows, drop_duplicates_rows by done.
    rewrite <- (length_fmap row_key). apply Permutation_length.
    apply NoDup_Permutation; [apply kept_from_NoDup | apply NoDup_remove_dups |].
    intros k. rewrite elem_of_remove_dups. split.
    + intros (r & -> & Hr)%list_elem_of_fmap. apply list_elem_of_fmap.
      exists r. split; [done |]. by apply keep_rows_elem_of in Hr.
    + intros (r & -> & Hr)%list_elem_of_fmap.
      by destruct (kept_from_cover row_key [] _ _ Hr) as [?%elem_of_nil | Hk].
Qed.

Lemma returned_row_count_witness :
  exists dd,
    frames (data_transformation RefFloat.py_float 0%nat (world_of input_data)).2
      !! 1%nat = Some dd
    /\ nrows dd = length (remove_dups (row_key <$> frame_rows input_data)).
Proof.
  apply (returned_row_count RefFloat.py_float (world_of input_data) _ 0%nat 1%nat
           input_data).
  - reflexivity.
  - vm_compute. reflexivity.
Defined.

(** ** Which columns make the addition raise *)

Lemma series_add_float_raises (fl : list float) (t : Series) (e : exn) :
  series_add (SFloat64 fl) t = Raise e -> exists lt, t = SObject lt.
Proof. unfold series_add. destruct t as [l|l|l]; try done. by exists l. Qed.

Lemma dedup_series_object_inv (d : DataFrame) (s : Series) (l' : list pyobj) :
  dedup_series d s = SObject l' -> exists l, s = SObject l.
Proof.
  unfold dedup_series. destruct (frame_empty d), s as [l|l|l]; simpl; try done;
    by exists l.
Qed.

(** ** Which rows are returned *)

Lemma duplicated_from_lookup (seen keys : list (list (option cell))) (i : nat)
    (k : list (option cell)) :
  keys !! i = Some k ->
  duplicated_from seen keys !! i = Some (bool_decide (k ∈ (seen ++ take i keys)%list)).
Proof.
  revert seen i; induction keys as [|k0 keys IH]; intros seen i Hk; [done |].
  destruct i as [|i]; simpl in *.
  - injection Hk as ->. by rewrite app_nil_r.
  - rewrite (IH _ _ Hk). f_equal. apply bool_decide_ext.
    rewrite !elem_of_app, !elem_of_cons. tauto.
Qed.

Lemma elem_of_keep_rows_seq (mask : list bool) (s i : nat) :
  i ∈ keep_rows mask (seq s (length mask))
  <-> exists j, i = (s + j)%nat /\ mask !! j = Some true.
Proof.
  revert s; induction mask as [|b mask IH]; intros s; simpl.
  - split; [by intros ?%elem_of_nil | by intros (j & _ & ?)].
  - assert (Hrest : i ∈ keep_rows mask (seq (S s) (length mask))
                    <-> exists j, i = (s + S j)%nat /\ mask !! j = Some true).
    { rewrite IH. split; intros (j & -> & Hj); exists j; (split; [lia | done]). }
    destruct b.
    + rewrite elem_of_cons, Hrest. split.
      * intros [-> | (j & -> & Hj)]; [exists 0%nat | exists (S j)]; by rewrite ?Nat.add_0_r.
      * intros ([|j] & -> & Hj); [left; lia | right; by exists j].
    + rewrite Hrest. split.
      * intros (j & -> & Hj). by exists (S j).
      * intros ([|j] & -> & Hj); [done | by exists j].
Qed.

Lemma keep_rows_seq_increasing (mask : list bool) (s n : nat) :
  StronglySorted lt (keep_rows mask (seq s n)).
Proof.
  revert s n; induction mask as [|b mask IH]; intros s [|n]; simpl; try constructor.
  destruct b; [| apply IH]. constructor; [apply IH |].
  apply Forall_forall. intros x Hx%keep_rows_elem_of%elem_of_seq. lia.
Qed.

(** The values kept are those at the positions kept. *)
Lemma keep_rows_positions {A : Type} (mask : list bool) (l : list A) (s : nat) :
  Forall2 (fun i x => (s <= i)%nat /\ l !! (i - s)%nat = Some x)
          (keep_rows mask (seq s (length l))) (keep_rows mask l).
Proof.
  revert l s; induction mask as [|b mask IH]; intros [|x l] s; simpl; try constructor.
  assert (Hrest : Forall2 (fun i y => (s <= i)%nat /\ (x :: l) !! (i - s)%nat = Some y)
                    (keep_rows mask (seq (S s) (length l))) (keep_rows mask l)).
  { eapply Forall2_impl; [apply (IH l (S s)) |]. intros i y [Hi Hy]. split; [lia |].
    replace (i - s)%nat with (S (i - S s)) by lia. done. }
  destruct b; [| done]. constructor; [| done].
  split; [done |]. by rewrite Nat.sub_diag.
Qed.

(** X1.  The rows of the table returned are the first occurrences
    among the rows of the argument, in their order and under their
    labels: there is an increasing list of positions, those of the
    rows that no earlier row equals as [drop_duplicates] compares
    them, and the row labels of the table returned are the labels of
    the argument at these positions. *)
Theorem returned_rows_from_argument (py_float : string -> option float)
    (w w' : World) (data out : ref) (d : DataFrame) :
  frames w !! data = Some d ->
  data_transformation py_float data w = (Ok out, w') ->
  exists dd positions,
    frames w' !! out = Some dd
    /\ StronglySorted lt positions
    /\ (forall i, i ∈ positions
          <-> (i < nrows d)%nat
              /\ forall j, (j < i)%nat ->
                   row_key (frame_row d j) <> row_key (frame_row d i))
    /\ Forall2 (fun i label => df_index d !! i = Some label) positions (df_index dd).
Proof.
  intros Hd Hrun.
  destruct (data_transformation_Ok py_float w w' data out d Hd Hrun)
    as (dd & Ht & _ & _ & Hout).
  apply transform_frame_columns in Ht
    as (l & fl & tax & total & Hl & _ & _ & _ & _ & _ & _ & Hidx & _).
  exists dd. destruct (frame_empty d) eqn:He.
  - assert (Hnil : df_index d = []).
    { unfold frame_empty in He.
      apply orb_true_iff in He as [Hi%bool_decide_eq_true | Hc%bool_decide_eq_true];
        [done |].
      rewrite column_drop_duplicates in Hl. unfold column in Hl. by rewrite Hc in Hl. }
    exists []. split; [done |]. split; [constructor |]. split.
    + intros i. unfold nrows. rewrite Hnil. simpl. split; [by intros ?%elem_of_nil | lia].
    + rewrite Hidx. unfold drop_duplicates_frame. rewrite He, Hnil. constructor.
  - set (mask := negb <$> duplicated d).
    assert (Hlen : length mask = nrows d).
    { unfold mask. by rewrite length_fmap, duplicated_length. }
    exists (keep_rows mask (seq 0 (nrows d))).
    split; [done |]. split; [apply keep_rows_seq_increasing |]. split.
    + intros i. rewrite <- Hlen at 1. rewrite elem_of_keep_rows_seq. simpl.
      assert (Hkey : forall j, (j < nrows d)%nat ->
                (row_key <$> frame_rows d) !! j = Some (row_key (frame_row d j))).
      { intros j Hj. unfold frame_rows. rewrite !list_lookup_fmap.
        by rewrite lookup_seq_lt. }
      split.
      * intros (j & Hij & Hj). simpl in Hij. subst j.
        assert (Hi : (i < nrows d)%nat).
        { rewrite <- Hlen. by eapply lookup_lt_Some. }
        split; [done |]. intros j' Hj' Heq.
        unfold mask, duplicated in Hj.
        rewrite list_lookup_fmap, (duplicated_from_lookup _ _ _ _ (Hkey i Hi)) in Hj.
        simpl in Hj. injection Hj as Hj. apply negb_true_iff, bool_decide_eq_false in Hj.
        apply Hj. simpl. apply elem_of_take. exists j'. split; [| done].
        rewrite Hkey by lia. by rewrite Heq.
      * intros [Hi Hfirst]. exists i. split; [done |].
        unfold mask, duplicated.
        rewrite list_lookup_fmap, (duplicated_from_lookup _ _ _ _ (Hkey i Hi)).
        simpl. f_equal. apply negb_true_iff, bool_decide_eq_false.
        simpl. intros (j & Hj & Hlt)%elem_of_take.
        rewrite Hkey in Hj by lia. injection Hj as Hj. by apply (Hfirst j).
    + rewrite Hidx. unfold drop_duplicates_frame. rewrite He. simpl. fold mask.
      unfold nrows. eapply Forall2_impl; [apply (keep_rows_positions mask (df_index d) 0) |].
      intros i label [_ Hi]. by rewrite Nat.sub_0_r in Hi.
Qed.

Lemma returned_rows_from_argument_witness :
  exists dd positions,
    frames (data_transformation RefFloat.py_float 0%nat (world_of respelled_data)).2
      !! 1%nat = Some dd
    /\ StronglySorted lt positions
    /\ (forall i, i ∈ positions
          <-> (i < nrows respelled_data)%nat
              /\ forall j, (j < i)%nat ->
                   row_key (frame_row respelled_data j)
                   <> row_key (frame_row respelled_data i))
    /\ Forall2 (fun i label => df_index respelled_data !! i = Some label) positions
               (df_index dd).
Proof.
  apply (returned_rows_from_argument RefFloat.py_float (world_of respelled_data) _
           0%nat 1%nat respelled_data).
  - reflexivity.
  - vm_compute. reflexivity.
Defined.

(** ** What an error tells *)

(** X10.  On a well-formed table the error of a call names its
    cause.  A [KeyError] carries the required label that the table
    lacks; an [AttributeError] means [billing_amount] holds no
    strings; a [ValueError] means one of its strings is no number once
    its dollar signs are removed; a [TypeError] means [tax_amount] is
    a column of text; and no other error is raised. *)
Theorem error_names_cause (py_float : string -> option float) (w : World)
    (data : ref) (d : DataFrame) (e : exn) :
  frames w !! data = Some d ->
  wf_frame d ->
  (data_transformation py_float data w).1 = Raise e ->
  (e = KeyError "billing_amount" /\ column d "billing_amount" = None)
  \/ (e = AttributeError
      /\ exists s, column d "billing_amount" = Some s /\ forall l, s <> SObject l)
  \/ (e = ValueError
      /\ exists l, column d "billing_amount" = Some (SObject l)
           /\ Exists (fun o => forall x, ~ coerced_to py_float o x) l)
  \/ (e = KeyError "tax_amount"
      /\ is_Some (column d "billing_amount") /\ column d "tax_amount" = None)
  \/ (e = TypeError
      /\ is_Some (column d "billing_amount")
      /\ exists lt, column d "tax_amount" = Some (SObject lt)).
Proof.
  intros Hd _. rewrite (data_transformation_result py_float w data d Hd).
  destruct (column d "billing_amount") as [[l|l|l]|] eqn:Hb.
  - rewrite (transform_numeric_billing py_float d _ Hb) by done.
    intros [= <-]. right; left. split; [done |]. by eexists.
  - rewrite (transform_numeric_billing py_float d _ Hb) by done.
    intros [= <-]. right; left. split; [done |]. by eexists.
  - destruct (coerce_billing_object py_float d l Hb) as (l' & Hl' & Hc).
    destruct (dedup_series_object d l) as (l'' & Hl'' & Hsub).
    rewrite Hl' in Hl''. injection Hl'' as <-.
    unfold transform_frame. rewrite Hc.
    destruct (mapM (coerce py_float) l') as [fl|] eqn:Hfl.
    + rewrite add_total_columns, column_drop_duplicates.
      destruct (column d "tax_amount") as [t|] eqn:Ht; simpl.
      * destruct (series_add (SFloat64 fl) (dedup_series d t)) as [total|e'] eqn:Hadd;
          [done |].
        intros [= <-]. do 4 right.
        pose proof (series_add_raises _ _ _ Hadd) as ->.
        apply series_add_float_raises in Hadd as [lt Hlt].
        apply dedup_series_object_inv in Hlt as [lt' ->].
        split; [done |]. split; [by eexists | by eexists].
      * intros [= <-]. do 3 right. left. split; [done |]. split; [by eexists | done].
    + intros [= <-]. do 2 right. left. split; [done |]. exists l. split; [done |].
      apply mapM_None, Exists_exists in Hfl as (o & Ho%Hsub & Hnone).
      apply Exists_exists. exists o. split; [done |].
      intros x Hx%coerce_coerced_to. congruence.
  - rewrite (transform_no_billing py_float d Hb). intros [= <-]. by left.
Qed.

Lemma error_names_cause_witness :
  (ValueError = KeyError "billing_amount"
   /\ column missing_tax_data "billing_amount" = None)
  \/ (ValueError = AttributeError
      /\ exists s, column missing_tax_data "billing_amount" = Some s
                   /\ forall l, s <> SObject l)
  \/ (ValueError = ValueError
      /\ exists l, column missing_tax_data "billing_amount" = Some (SObject l)
           /\ Exists (fun o => forall x, ~ coerced_to RefFloat.py_float o x) l)
  \/ (ValueError = KeyError "tax_amount"
      /\ is_Some (column missing_tax_data "billing_amount")
      /\ column missing_tax_data "tax_amount" = None)
  \/ (ValueError = TypeError
      /\ is_Some (column missing_tax_data "billing_amount")
      /\ exists lt, column missing_tax_data "tax_amount" = Some (SObject lt)).
Proof.
  apply (error_names_cause RefFloat.py_float (world_of missing_tax_data) 0%nat
           missing_tax_data ValueError).
  - reflexivity.
  - apply (bool_decide_unpack (wf_frame missing_tax_data)). vm_compute. exact I.
  - vm_compute. reflexivity.
Defined.

(** ** What is written can be read back *)

Lemma filter_all {A : Type} (P : A -> Prop) `{!forall x, Decision (P x)} (l : list A) :
  Forall P l -> filter P l = l.
Proof.
  induction 1 as [|x l Hx Hl IH]; [done |].
  by rewrite filter_cons, decide_True, IH.
Qed.

(** X12.  The file that [data_loading] writes for a table with at
    least one column holds the table: read back as CSV text (commas
    between fields, a line feed after each record, quoted fields), it
    has the column labels as its first record and then one record per
    row, in the order of the rows, with the written form of each value
    in the order of the columns.  What the file held before is
    gone. *)
Theorem loaded_file_reads_back (float_repr : float -> string) (w : World)
    (data : ref) (output_file : string) (d : DataFrame) :
  frames w !! data = Some d ->
  locked w !! output_file = None ->
  df_columns d <> [] ->
  exists text,
    data_loading float_repr data output_file w
    = (Ok tt, with_files (<[output_file := text]> (files w)) w)
    /\ csv_records text
       = labels d
         :: ((fun r : list (option cell) => csv_cell float_repr <$> r) <$> frame_rows d).
Proof.
  intros Hd Hl Hcols. exists (to_csv_text float_repr d). split.
  - unfold data_loading, to_csv. rewrite bind_run. unfold load. rewrite Hd.
    unfold write_file. by rewrite Hl.
  - rewrite read_to_csv_text. apply filter_all. constructor.
    + unfold labels. by destruct (df_columns d).
    + apply Forall_fmap, Forall_fmap, Forall_forall. intros i _. simpl.
      unfold frame_row. by destruct (df_columns d).
Qed.

Lemma loaded_file_reads_back_witness :
  exists text,
    data_loading RefFloat.repr 0%nat "transformed_data.csv" (world_of transformed_data)
    = (Ok tt,
       with_files (<["transformed_data.csv" := text]> (files (world_of transformed_data)))
                  (world_of transformed_data))
    /\ csv_records text
       = labels transformed_data
         :: ((fun r : list (option cell) => csv_cell RefFloat.repr <$> r)
               <$> frame_rows transformed_data).
Proof.
  apply (loaded_file_reads_back RefFloat.repr (world_of transformed_data) 0%nat
           "transformed_data.csv" transformed_data).
  - reflexivity.
  - reflexivity.
  - discriminate.
Defined.

(** The file written for the table that [test_data_transformation]
    obtains, as text and as records. *)
Example transformed_data_file :
  to_csv_text RefFloat.repr transformed_data
  = String.concat (String (ascii_of_nat 10) EmptyString)
      ["customer_id,billing_amount,tax_amount,total_charges";
       "1,100.0,10,110.0"; "2,200.0,20,220.0"; "3,300.0,30,330.0";
       "4,400.0,40,440.0"; "5,500.0,50,550.0"; EmptyString]
  /\ csv_records (to_csv_text RefFloat.repr transformed_data)
     = [["customer_id"; "billing_amount"; "tax_amount"; "total_charges"];
        ["1"; "100.0"; "10"; "110.0"]; ["2"; "200.0"; "20"; "220.0"];
        ["3"; "300.0"; "30"; "330.0"]; ["4"; "400.0"; "40"; "440.0"];
        ["5"; "500.0"; "50"; "550.0"]].
Proof. split; vm_compute; reflexivity. Qed.
